(** * System monitor: a shallow embedding of [system_monitor.py] and
      [web_monitor.py]

    The program keeps one [SystemInfo] object inside a [SystemMonitor].
    It is filled once by the constructor and then refreshed, field by
    field, by [update_all], which a background thread (web mode) or the
    terminal loop calls every two seconds.  The HTTP handler [get_data]
    reads ten fields of that same object.

    Modelling conventions.
    - Python [float] values are exact rationals ([Q]).  The only float
      arithmetic in the modelled code is a division of an integer by
      [1024**3] (a power of two), a division by [1000.0] and a [min];
      Python [int] values stored in numeric fields are embedded with
      [inject_Z].
    - Every call that leaves the program (psutil, pynvml, the file system,
      [lspci], and [print], which writes to a standard output that may
      refuse the text) takes its result from an environment record: it
      either returns a value or raises.  An interrupt of the process is
      delivered at such a call.
    - The figures of psutil and NVML come from C integers; the clock of
      the Intel GPU is parsed from text and can be any integer, so the
      conversion to [float] that may overflow is modelled there.
    - Assignments to the shared object, external calls and error messages
      are appended to an event log, so that the order of effects and the
      states a concurrent reader can see are part of the model. *)

From Stdlib Require Import ZArith QArith List String Ascii Bool Lia.
Import ListNotations.


(** ** Exceptions *)

(** The exception classes the modelled code can meet.  [except Exception]
    catches all but the last two, a bare [except:] catches all of them. *)
Inductive pyexc : Type :=
| NVMLError
| OSError
| ValueError
| IndexError
| AttributeError
| OverflowError
| UnicodeEncodeError
| KeyboardInterrupt
| SystemExit.

Definition is_Exception (e : pyexc) : bool :=
  match e with
  | KeyboardInterrupt | SystemExit => false
  | _ => true
  end.

Inductive outcome (A : Type) : Type :=
| Returns (a : A)
| Raises (e : pyexc).

Arguments Returns {A} a.
Arguments Raises {A} e.

(** ** The data model *)

(** [@dataclass class SystemInfo] with its defaults. *)
Record SystemInfo : Type := mkSystemInfo {
  cpu_name : string;
  cpu_cores : option Z;
  cpu_threads : option Z;
  cpu_usage : Q;
  cpu_freq : Q;
  ram_total : Q;
  ram_used : Q;
  ram_percent : Q;
  gpu_intel_name : string;
  gpu_intel_usage : Q;
  gpu_intel_mem_used : Q;
  gpu_nvidia_name : string;
  gpu_nvidia_usage : Q;
  gpu_nvidia_mem_used : Q;
  gpu_nvidia_mem_total : Q;
  gpu_nvidia_temp : Q
}.

Definition SystemInfo_default : SystemInfo :=
  {| cpu_name := ""; cpu_cores := Some 0%Z; cpu_threads := Some 0%Z;
     cpu_usage := 0; cpu_freq := 0;
     ram_total := 0; ram_used := 0; ram_percent := 0;
     gpu_intel_name := ""; gpu_intel_usage := 0; gpu_intel_mem_used := 0;
     gpu_nvidia_name := ""; gpu_nvidia_usage := 0;
     gpu_nvidia_mem_used := 0; gpu_nvidia_mem_total := 0;
     gpu_nvidia_temp := 0 |}.

(** Names of the attributes, used to tag the assignments in the log. *)
Inductive field : Type :=
| F_cpu_name | F_cpu_cores | F_cpu_threads | F_cpu_usage | F_cpu_freq
| F_ram_total | F_ram_used | F_ram_percent
| F_gpu_intel_name | F_gpu_intel_usage | F_gpu_intel_mem_used
| F_gpu_nvidia_name | F_gpu_nvidia_usage | F_gpu_nvidia_mem_used
| F_gpu_nvidia_mem_total | F_gpu_nvidia_temp.

(** Attribute assignment [self.system_info.<field> = v]: one setter per
    attribute, every other attribute is left as it is. *)

Definition set_cpu_name (v : string) (s : SystemInfo) : SystemInfo :=
  mkSystemInfo v (cpu_cores s) (cpu_threads s) (cpu_usage s) (cpu_freq s)
    (ram_total s) (ram_used s) (ram_percent s) (gpu_intel_name s)
    (gpu_intel_usage s) (gpu_intel_mem_used s) (gpu_nvidia_name s)
    (gpu_nvidia_usage s) (gpu_nvidia_mem_used s) (gpu_nvidia_mem_total s)
    (gpu_nvidia_temp s).

Definition set_cpu_cores (v : option Z) (s : SystemInfo) : SystemInfo :=
  mkSystemInfo (cpu_name s) v (cpu_threads s) (cpu_usage s) (cpu_freq s)
    (ram_total s) (ram_used s) (ram_percent s) (gpu_intel_name s)
    (gpu_intel_usage s) (gpu_intel_mem_used s) (gpu_nvidia_name s)
    (gpu_nvidia_usage s) (gpu_nvidia_mem_used s) (gpu_nvidia_mem_total s)
    (gpu_nvidia_temp s).

Definition set_cpu_threads (v : option Z) (s : SystemInfo) : SystemInfo :=
  mkSystemInfo (cpu_name s) (cpu_cores s) v (cpu_usage s) (cpu_freq s)
    (ram_total s) (ram_used s) (ram_percent s) (gpu_intel_name s)
    (gpu_intel_usage s) (gpu_intel_mem_used s) (gpu_nvidia_name s)
    (gpu_nvidia_usage s) (gpu_nvidia_mem_used s) (gpu_nvidia_mem_total s)
    (gpu_nvidia_temp s).

Definition set_cpu_usage (v : Q) (s : SystemInfo) : SystemInfo :=
  mkSystemInfo (cpu_name s) (cpu_cores s) (cpu_threads s) v (cpu_freq s)
    (ram_total s) (ram_used s) (ram_percent s) (gpu_intel_name s)
    (gpu_intel_usage s) (gpu_intel_mem_used s) (gpu_nvidia_name s)
    (gpu_nvidia_usage s) (gpu_nvidia_mem_used s) (gpu_nvidia_mem_total s)
    (gpu_nvidia_temp s).

Definition set_cpu_freq (v : Q) (s : SystemInfo) : SystemInfo :=
  mkSystemInfo (cpu_name s) (cpu_cores s) (cpu_threads s) (cpu_usage s) v
    (ram_total s) (ram_used s) (ram_percent s) (gpu_intel_name s)
    (gpu_intel_usage s) (gpu_intel_mem_used s) (gpu_nvidia_name s)
    (gpu_nvidia_usage s) (gpu_nvidia_mem_used s) (gpu_nvidia_mem_total s)
    (gpu_nvidia_temp s).

Definition set_ram_total (v : Q) (s : SystemInfo) : SystemInfo :=
  mkSystemInfo (cpu_name s) (cpu_cores s) (cpu_threads s) (cpu_usage s)
    (cpu_freq s) v (ram_used s) (ram_percent s) (gpu_intel_name s)
    (gpu_intel_usage s) (gpu_intel_mem_used s) (gpu_nvidia_name s)
    (gpu_nvidia_usage s) (gpu_nvidia_mem_used s) (gpu_nvidia_mem_total s)
    (gpu_nvidia_temp s).

Definition set_ram_used (v : Q) (s : SystemInfo) : SystemInfo :=
  mkSystemInfo (cpu_name s) (cpu_cores s) (cpu_threads s) (cpu_usage s)
    (cpu_freq s) (ram_total s) v (ram_percent s) (gpu_intel_name s)
    (gpu_intel_usage s) (gpu_intel_mem_used s) (gpu_nvidia_name s)
    (gpu_nvidia_usage s) (gpu_nvidia_mem_used s) (gpu_nvidia_mem_total s)
    (gpu_nvidia_temp s).

Definition set_ram_percent (v : Q) (s : SystemInfo) : SystemInfo :=
  mkSystemInfo (cpu_name s) (cpu_cores s) (cpu_threads s) (cpu_usage s)
    (cpu_freq s) (ram_total s) (ram_used s) v (gpu_intel_name s)
    (gpu_intel_usage s) (gpu_intel_mem_used s) (gpu_nvidia_name s)
    (gpu_nvidia_usage s) (gpu_nvidia_mem_used s) (gpu_nvidia_mem_total s)
    (gpu_nvidia_temp s).

Definition set_gpu_intel_name (v : string) (s : SystemInfo) : SystemInfo :=
  mkSystemInfo (cpu_name s) (cpu_cores s) (cpu_threads s) (cpu_usage s)
    (cpu_freq s) (ram_total s) (ram_used s) (ram_percent s) v
    (gpu_intel_usage s) (gpu_intel_mem_used s) (gpu_nvidia_name s)
    (gpu_nvidia_usage s) (gpu_nvidia_mem_used s) (gpu_nvidia_mem_total s)
    (gpu_nvidia_temp s).

Definition set_gpu_intel_usage (v : Q) (s : SystemInfo) : SystemInfo :=
  mkSystemInfo (cpu_name s) (cpu_cores s) (cpu_threads s) (cpu_usage s)
    (cpu_freq s) (ram_total s) (ram_used s) (ram_percent s)
    (gpu_intel_name s) v (gpu_intel_mem_used s) (gpu_nvidia_name s)
    (gpu_nvidia_usage s) (gpu_nvidia_mem_used s) (gpu_nvidia_mem_total s)
    (gpu_nvidia_temp s).

Definition set_gpu_intel_mem_used (v : Q) (s : SystemInfo) : SystemInfo :=
  mkSystemInfo (cpu_name s) (cpu_cores s) (cpu_threads s) (cpu_usage s)
    (cpu_freq s) (ram_total s) (ram_used s) (ram_percent s)
    (gpu_intel_name s) (gpu_intel_usage s) v (gpu_nvidia_name s)
    (gpu_nvidia_usage s) (gpu_nvidia_mem_used s) (gpu_nvidia_mem_total s)
    (gpu_nvidia_temp s).

Definition set_gpu_nvidia_name (v : string) (s : SystemInfo) : SystemInfo :=
  mkSystemInfo (cpu_name s) (cpu_cores s) (cpu_threads s) (cpu_usage s)
    (cpu_freq s) (ram_total s) (ram_used s) (ram_percent s)
    (gpu_intel_name s) (gpu_intel_usage s) (gpu_intel_mem_used s) v
    (gpu_nvidia_usage s) (gpu_nvidia_mem_used s) (gpu_nvidia_mem_total s)
    (gpu_nvidia_temp s).

Definition set_gpu_nvidia_usage (v : Q) (s : SystemInfo) : SystemInfo :=
  mkSystemInfo (cpu_name s) (cpu_cores s) (cpu_threads s) (cpu_usage s)
    (cpu_freq s) (ram_total s) (ram_used s) (ram_percent s)
    (gpu_intel_name s) (gpu_intel_usage s) (gpu_intel_mem_used s)
    (gpu_nvidia_name s) v (gpu_nvidia_mem_used s) (gpu_nvidia_mem_total s)
    (gpu_nvidia_temp s).

Definition set_gpu_nvidia_mem_used (v : Q) (s : SystemInfo) : SystemInfo :=
  mkSystemInfo (cpu_name s) (cpu_cores s) (cpu_threads s) (cpu_usage s)
    (cpu_freq s) (ram_total s) (ram_used s) (ram_percent s)
    (gpu_intel_name s) (gpu_intel_usage s) (gpu_intel_mem_used s)
    (gpu_nvidia_name s) (gpu_nvidia_usage s) v (gpu_nvidia_mem_total s)
    (gpu_nvidia_temp s).

Definition set_gpu_nvidia_mem_total (v : Q) (s : SystemInfo) : SystemInfo :=
  mkSystemInfo (cpu_name s) (cpu_cores s) (cpu_threads s) (cpu_usage s)
    (cpu_freq s) (ram_total s) (ram_used s) (ram_percent s)
    (gpu_intel_name s) (gpu_intel_usage s) (gpu_intel_mem_used s)
    (gpu_nvidia_name s) (gpu_nvidia_usage s) (gpu_nvidia_mem_used s) v
    (gpu_nvidia_temp s).

Definition set_gpu_nvidia_temp (v : Q) (s : SystemInfo) : SystemInfo :=
  mkSystemInfo (cpu_name s) (cpu_cores s) (cpu_threads s) (cpu_usage s)
    (cpu_freq s) (ram_total s) (ram_used s) (ram_percent s)
    (gpu_intel_name s) (gpu_intel_usage s) (gpu_intel_mem_used s)
    (gpu_nvidia_name s) (gpu_nvidia_usage s) (gpu_nvidia_mem_used s)
    (gpu_nvidia_mem_total s) v.

(** ** Effects: external calls, the event log and the monad *)

(** An NVML device handle is opaque to the program. *)
Definition handle : Type := Z.

(** The calls that leave the program. *)
Inductive call : Type :=
| psutil_cpu_percent
| psutil_cpu_freq
| psutil_virtual_memory
| psutil_cpu_count (logical : bool)
| read_file (path : string)
| subprocess_run_lspci
| nvmlInit
| nvmlDeviceGetHandleByIndex (index : Z)
| nvmlDeviceGetName (h : handle)
| nvmlDeviceGetUtilizationRates (h : handle)
| nvmlDeviceGetMemoryInfo (h : handle)
| nvmlDeviceGetTemperature (h : handle)
| nvmlShutdown.

(** The five error messages the program prints. *)
Inductive message : Type :=
| Msg_cpu_init_error
| Msg_intel_init_error
| Msg_nvidia_init_error
| Msg_intel_update_error
| Msg_nvidia_update_error.

Inductive event : Type :=
| EvCall (c : call)
| EvWrite (f : field) (after : SystemInfo)
| EvPrint (m : message) (e : pyexc).

(** Running a piece of code from a state of the shared object gives its
    result, the state of the object when it stops (an exception does not
    undo the assignments made before it) and the events in order. *)
Record run (A : Type) : Type := mkRun {
  result : outcome A;
  final : SystemInfo;
  trace : list event
}.

Arguments mkRun {A} result final trace.
Arguments result {A} r.
Arguments final {A} r.
Arguments trace {A} r.

Definition M (A : Type) : Type := SystemInfo -> run A.

Definition ret {A} (a : A) : M A :=
  fun s => mkRun (Returns a) s [].

Definition raise {A} (e : pyexc) : M A :=
  fun s => mkRun (Raises e) s [].

Definition bind {A B} (m : M A) (k : A -> M B) : M B :=
  fun s =>
    let r1 := m s in
    match result r1 with
    | Returns a =>
        let r2 := k a (final r1) in
        mkRun (result r2) (final r2) (trace r1 ++ trace r2)
    | Raises e => mkRun (Raises e) (final r1) (trace r1)
    end.

Declare Scope py_scope.
Delimit Scope py_scope with py.
Notation "x <- m ;; k" := (bind m (fun x => k))
  (at level 61, m at next level, right associativity) : py_scope.
Notation "m ;; k" := (bind m (fun _ => k))
  (at level 61, right associativity) : py_scope.
Local Open Scope py_scope.

(** [try: body except <class>: handler]; [catches] is [is_Exception] for
    [except Exception] and [fun _ => true] for a bare [except:]. *)
Definition try_except {A} (body : M A) (catches : pyexc -> bool)
    (handler : pyexc -> M A) : M A :=
  fun s =>
    let r1 := body s in
    match result r1 with
    | Returns a => r1
    | Raises e =>
        if catches e then
          let r2 := handler e (final r1) in
          mkRun (result r2) (final r2) (trace r1 ++ trace r2)
        else r1
    end.

Definition except_Exception : pyexc -> bool := is_Exception.
Definition except_all : pyexc -> bool := fun _ => true.

(** An external call: logged, its result taken from the environment. *)
Definition extern {A} (c : call) (o : outcome A) : M A :=
  fun s => mkRun o s [EvCall c].

(** [self.system_info.<f> = v]. *)
Definition assign {V} (f : field) (set : V -> SystemInfo -> SystemInfo)
    (v : V) : M unit :=
  fun s => mkRun (Returns tt) (set v s) [EvWrite f (set v s)].

(** [print(f"<message>: {e}")]: the call is logged; it returns, or it
    raises what standard output raises ([UnicodeEncodeError] for a text
    it cannot encode, [OSError] when it is closed, an interrupt). *)
Definition print (m : message) (e : pyexc) (o : outcome unit) : M unit :=
  fun s => mkRun o s [EvPrint m e].

(** A computation inside the program that may raise: no event. *)
Definition compute {A} (o : outcome A) : M A :=
  fun s => mkRun o s [].

(** ** Environments *)

(** The two module-level flags, set once when the module is imported by
    [try: import ... except ImportError]. *)
Record modules : Type := mkModules {
  NVIDIA_AVAILABLE : bool;
  INTEL_GPU_AVAILABLE : bool
}.

(** What [psutil.virtual_memory()] returns, as far as the program reads it. *)
Record svmem : Type := mkSvmem {
  total : Z;
  used : Z;
  percent : Q
}.

(** What [pynvml.nvmlDeviceGetMemoryInfo] returns, as far as it is read. *)
Record nvml_memory : Type := mkNvmlMemory {
  nv_used : Z;
  nv_total : Z
}.

(** Results of the external calls of the constructor.  [cpuinfo_out] is
    the list of lines of [/proc/cpuinfo]; [device_name_out] is the result
    of [nvmlDeviceGetName(handle).decode('utf-8')] as a whole; the last
    three are the results of the [print] in each of its handlers. *)
Record init_env : Type := mkInitEnv {
  cpuinfo_out : outcome (list string);
  cpu_count_physical_out : outcome (option Z);
  cpu_count_logical_out : outcome (option Z);
  lspci_out : outcome string;
  init_nvmlInit_out : outcome unit;
  init_handle_out : outcome handle;
  device_name_out : outcome string;
  init_nvmlShutdown_out : outcome unit;
  init_print_cpu_out : outcome unit;
  init_print_intel_out : outcome unit;
  init_print_nvidia_out : outcome unit
}.

(** Results of the external calls of one update cycle.  [cpu_freq_out] is
    [None] when [psutil.cpu_freq()] returns [None] and the [current] field
    otherwise; [gt_cur_freq_out] is the result of opening
    [/sys/class/drm/card0/gt_cur_freq_mhz], reading it and converting the
    stripped text with [int]; [utilization_out] is the [gpu] field of the
    utilization rates; the last two are the results of the [print] in the
    handlers of the Intel and of the NVIDIA step. *)
Record cycle_env : Type := mkCycleEnv {
  cpu_percent_out : outcome Q;
  cpu_freq_out : outcome (option Q);
  virtual_memory_out : outcome svmem;
  gt_cur_freq_out : outcome Z;
  nvmlInit_out : outcome unit;
  handle_out : outcome handle;
  utilization_out : outcome Z;
  memory_info_out : outcome nvml_memory;
  temperature_out : outcome Z;
  nvmlShutdown_out : outcome unit;
  print_intel_out : outcome unit;
  print_nvidia_out : outcome unit
}.

(** ** String helpers of the constructor *)

(** Strings are byte strings; of Python's whitespace only the ASCII part
    (codes 9 to 13 and 28 to 32) is modelled. *)
Definition is_space (c : ascii) : bool :=
  let n := nat_of_ascii c in
  ((9 <=? n)%nat && (n <=? 13)%nat) || ((28 <=? n)%nat && (n <=? 32)%nat).

(** [needle in hay]. *)
Fixpoint contains (needle hay : string) : bool :=
  String.prefix needle hay ||
  match hay with
  | EmptyString => false
  | String _ rest => contains needle rest
  end.

(** [s.split(sep)] for a separator of one character. *)
Fixpoint split_on (sep : ascii) (s : string) : list string :=
  match s with
  | EmptyString => [EmptyString]
  | String c rest =>
      if Ascii.eqb c sep then EmptyString :: split_on sep rest
      else match split_on sep rest with
           | x :: xs => String c x :: xs
           | [] => [String c EmptyString]
           end
  end.

Fixpoint lstrip (s : string) : string :=
  match s with
  | EmptyString => EmptyString
  | String c rest => if is_space c then lstrip rest else s
  end.

Fixpoint rstrip (s : string) : string :=
  match s with
  | EmptyString => EmptyString
  | String c rest =>
      match rstrip rest with
      | EmptyString => if is_space c then EmptyString else String c EmptyString
      | r => String c r
      end
  end.

(** [s.strip()]. *)
Definition strip (s : string) : string := rstrip (lstrip s).

(** The test of the [lspci] loop:
    ['Intel' in line and ('Graphics' in line or 'UHD' in line or
    'HD Graphics' in line)]. *)
Definition is_intel_gpu_line (line : string) : bool :=
  contains "Intel" line &&
  (contains "Graphics" line || contains "UHD" line
   || contains "HD Graphics" line).

Definition newline : ascii := "010"%char.
Definition colon : ascii := ":"%char.

(** ** [class SystemMonitor]: the constructor *)

(** [_init_cpu_info]: the first line of [/proc/cpuinfo] that contains
    ['model name'] gives the name, then the two core counts are read; any
    [Exception] on the way is printed and ends the method. *)
Definition _init_cpu_info (env : init_env) : M unit :=
  try_except
    (lines <- extern (read_file "/proc/cpuinfo") (cpuinfo_out env) ;;
     (match find (contains "model name") lines with
      | Some line =>
          match nth_error (split_on colon line) 1 with
          | Some part => assign F_cpu_name set_cpu_name (strip part)
          | None => raise IndexError
          end
      | None => ret tt
      end) ;;
     cores <- extern (psutil_cpu_count false) (cpu_count_physical_out env) ;;
     assign F_cpu_cores set_cpu_cores cores ;;
     threads <- extern (psutil_cpu_count true) (cpu_count_logical_out env) ;;
     assign F_cpu_threads set_cpu_threads threads)
    except_Exception
    (fun e => print Msg_cpu_init_error e (init_print_cpu_out env)).

(** [_init_gpu_info]: the Intel name from the output of [lspci -v], then,
    when the vendor module was imported, the NVIDIA name from device 0. *)
Definition _init_gpu_info (mods : modules) (env : init_env) : M unit :=
  try_except
    (stdout <- extern subprocess_run_lspci (lspci_out env) ;;
     match find is_intel_gpu_line (split_on newline stdout) with
     | Some line =>
         match nth_error (split_on colon line) 2 with
         | Some part => assign F_gpu_intel_name set_gpu_intel_name (strip part)
         | None => raise IndexError
         end
     | None => ret tt
     end)
    except_Exception
    (fun e => print Msg_intel_init_error e (init_print_intel_out env)) ;;
  if NVIDIA_AVAILABLE mods then
    try_except
      (extern nvmlInit (init_nvmlInit_out env) ;;
       h <- extern (nvmlDeviceGetHandleByIndex 0) (init_handle_out env) ;;
       name <- extern (nvmlDeviceGetName h) (device_name_out env) ;;
       assign F_gpu_nvidia_name set_gpu_nvidia_name name ;;
       extern nvmlShutdown (init_nvmlShutdown_out env))
      except_Exception
      (fun e => print Msg_nvidia_init_error e (init_print_nvidia_out env))
  else ret tt.

(** [SystemMonitor.__init__]: a fresh [SystemInfo()] and the two probes. *)
Definition SystemMonitor_init (mods : modules) (env : init_env) : run unit :=
  (_init_cpu_info env ;; _init_gpu_info mods env) SystemInfo_default.

(** ** [class SystemMonitor]: the update cycle *)

(** [1024**3]. *)
Definition GiB : Z := (1024 ^ 3)%Z.

(** [float(n)] for an integer: [OverflowError] when [n] rounds beyond the
    largest finite double, which is from [2**1024 - 2**970] on; below
    that the rounding of the conversion is not modelled. *)
Definition float_of_int (n : Z) : outcome Q :=
  if (Z.abs n <? 2 ^ 1024 - 2 ^ 970)%Z then Returns (inject_Z n)
  else Raises OverflowError.

(** Python's [min(a, b)]: [b] only when [b < a]. *)
Definition py_min (a b : Q) : Q :=
  if Qle_bool a b then a else b.

Definition update_cpu_info (env : cycle_env) : M unit :=
  usage <- extern psutil_cpu_percent (cpu_percent_out env) ;;
  assign F_cpu_usage set_cpu_usage usage ;;
  try_except
    (cpu_freq <- extern psutil_cpu_freq (cpu_freq_out env) ;;
     match cpu_freq with
     | Some current => assign F_cpu_freq set_cpu_freq current
     | None => ret tt
     end)
    except_all
    (fun _ => assign F_cpu_freq set_cpu_freq 0).

Definition update_ram_info (env : cycle_env) : M unit :=
  mem <- extern psutil_virtual_memory (virtual_memory_out env) ;;
  assign F_ram_total set_ram_total (inject_Z (total mem) / inject_Z GiB) ;;
  assign F_ram_used set_ram_used (inject_Z (used mem) / inject_Z GiB) ;;
  assign F_ram_percent set_ram_percent (percent mem).

Definition update_intel_gpu_info (mods : modules) (env : cycle_env)
    : M unit :=
  if INTEL_GPU_AVAILABLE mods then
    try_except
      (assign F_gpu_intel_usage set_gpu_intel_usage 0 ;;
       assign F_gpu_intel_mem_used set_gpu_intel_mem_used 0)
      except_Exception
      (fun e => print Msg_intel_update_error e (print_intel_out env))
  else
    try_except
      (freq <- extern (read_file "/sys/class/drm/card0/gt_cur_freq_mhz")
                 (gt_cur_freq_out env) ;;
       clock <- compute (float_of_int freq) ;;
       assign F_gpu_intel_usage set_gpu_intel_usage
         (py_min (clock / 1000) 100))
      except_all
      (fun _ => assign F_gpu_intel_usage set_gpu_intel_usage 0).

Definition update_nvidia_gpu_info (mods : modules) (env : cycle_env)
    : M unit :=
  if negb (NVIDIA_AVAILABLE mods) then ret tt
  else
    try_except
      (extern nvmlInit (nvmlInit_out env) ;;
       h <- extern (nvmlDeviceGetHandleByIndex 0) (handle_out env) ;;
       utilization <- extern (nvmlDeviceGetUtilizationRates h)
                        (utilization_out env) ;;
       assign F_gpu_nvidia_usage set_gpu_nvidia_usage (inject_Z utilization) ;;
       memory <- extern (nvmlDeviceGetMemoryInfo h) (memory_info_out env) ;;
       assign F_gpu_nvidia_mem_used set_gpu_nvidia_mem_used
         (inject_Z (nv_used memory) / inject_Z GiB) ;;
       assign F_gpu_nvidia_mem_total set_gpu_nvidia_mem_total
         (inject_Z (nv_total memory) / inject_Z GiB) ;;
       try_except
         (temp <- extern (nvmlDeviceGetTemperature h) (temperature_out env) ;;
          assign F_gpu_nvidia_temp set_gpu_nvidia_temp (inject_Z temp))
         except_all
         (fun _ => assign F_gpu_nvidia_temp set_gpu_nvidia_temp 0) ;;
       extern nvmlShutdown (nvmlShutdown_out env))
      except_Exception
      (fun e => print Msg_nvidia_update_error e (print_nvidia_out env)).

Definition update_all (mods : modules) (env : cycle_env) : M unit :=
  update_cpu_info env ;;
  update_ram_info env ;;
  update_intel_gpu_info mods env ;;
  update_nvidia_gpu_info mods env.

(** ** [web_monitor.py] *)

(** The first iterations of [update_loop] ([while True: monitor.update_all();
    time.sleep(2)]), one environment per iteration; an exception that
    leaves [update_all] ends the loop. *)
Fixpoint update_loop (mods : modules) (envs : list cycle_env) : M unit :=
  match envs with
  | [] => ret tt
  | env :: rest => update_all mods env ;; update_loop mods rest
  end.

(** The dictionary that [get_data] passes to [jsonify], in the order it
    is written. *)
Definition get_data (s : SystemInfo) : list (string * Q) :=
  [ ("cpu_usage"%string, cpu_usage s);
    ("cpu_freq"%string, cpu_freq s);
    ("ram_used"%string, ram_used s);
    ("ram_total"%string, ram_total s);
    ("ram_percent"%string, ram_percent s);
    ("gpu_intel_usage"%string, gpu_intel_usage s);
    ("gpu_nvidia_usage"%string, gpu_nvidia_usage s);
    ("gpu_nvidia_mem_used"%string, gpu_nvidia_mem_used s);
    ("gpu_nvidia_mem_total"%string, gpu_nvidia_mem_total s);
    ("gpu_nvidia_temp"%string, gpu_nvidia_temp s) ].

(** Reading one key of that dictionary. *)
Fixpoint lookup (key : string) (d : list (string * Q)) : option Q :=
  match d with
  | [] => None
  | (k, v) :: rest => if String.eqb key k then Some v else lookup key rest
  end.

(** ** Specification vocabulary *)

(** A percentage. *)
Definition percentage (q : Q) : Prop := 0 <= q /\ q <= 100.

(** The invariant of the data model: used memory within total memory, for
    system memory and for NVIDIA memory, and the four usage figures within
    0 and 100. *)
Definition snapshot_ok (s : SystemInfo) : Prop :=
  ram_used s <= ram_total s /\
  gpu_nvidia_mem_used s <= gpu_nvidia_mem_total s /\
  percentage (cpu_usage s) /\
  percentage (ram_percent s) /\
  percentage (gpu_intel_usage s) /\
  percentage (gpu_nvidia_usage s).

(** A property of the value an external call returns; a call that raises
    returns nothing to constrain. *)
Definition returned {A} (P : A -> Prop) (o : outcome A) : Prop :=
  match o with
  | Returns a => P a
  | Raises _ => True
  end.

(** Readings in range: what the sources report is itself consistent. *)
Definition valid_env (env : cycle_env) : Prop :=
  returned percentage (cpu_percent_out env) /\
  returned (fun m => (used m <= total m)%Z /\ percentage (percent m))
    (virtual_memory_out env) /\
  returned (fun f => (0 <= f)%Z) (gt_cur_freq_out env) /\
  returned (fun u => (0 <= u <= 100)%Z) (utilization_out env) /\
  returned (fun m => (nv_used m <= nv_total m)%Z) (memory_info_out env).

(** The five identification attributes. *)
Definition is_static (f : field) : bool :=
  match f with
  | F_cpu_name | F_cpu_cores | F_cpu_threads
  | F_gpu_intel_name | F_gpu_nvidia_name => true
  | _ => false
  end.

Definition same_static (s s' : SystemInfo) : Prop :=
  cpu_name s' = cpu_name s /\
  cpu_cores s' = cpu_cores s /\
  cpu_threads s' = cpu_threads s /\
  gpu_intel_name s' = gpu_intel_name s /\
  gpu_nvidia_name s' = gpu_nvidia_name s.

(** The calls by which the constructor identifies the hardware. *)
Definition is_identification_probe (c : call) : bool :=
  match c with
  | read_file path => String.eqb path "/proc/cpuinfo"
  | psutil_cpu_count _ | subprocess_run_lspci | nvmlDeviceGetName _ => true
  | _ => false
  end.

(** What an event of an update cycle may be, seen from the state [s0]
    before the cycle: a call that is no identification probe, an
    assignment to a dynamic attribute that leaves the static ones as in
    [s0], or a message. *)
Definition dynamic_event (s0 : SystemInfo) (ev : event) : Prop :=
  match ev with
  | EvCall c => is_identification_probe c = false
  | EvWrite f after => is_static f = false /\ same_static s0 after
  | EvPrint _ _ => True
  end.


(** The calls a piece of code made, in order. *)
Definition calls_of (t : list event) : list call :=
  flat_map (fun ev => match ev with EvCall c => [c] | _ => [] end) t.

(** The states of the shared object that a reader running beside the code
    can find: the state before it and the state after each assignment. *)
Definition observable (s : SystemInfo) (t : list event) : list SystemInfo :=
  s :: flat_map (fun ev => match ev with EvWrite _ a => [a] | _ => [] end) t.

(** The attributes assigned, in order. *)
Definition written (t : list event) : list field :=
  flat_map (fun ev => match ev with EvWrite f _ => [f] | _ => [] end) t.

(** A step of code keeps a property of the shared object and emits only
    events of a given kind, whether it returns or raises. *)
Definition keeps {A} (I : SystemInfo -> Prop) (P : event -> Prop)
    (m : M A) : Prop :=
  forall s, I s -> I (final (m s)) /\ Forall P (trace (m s)).

(** No constraint on the events. *)
Definition any_event (ev : event) : Prop := True.

(** A cycle in which the memory source answers with more used than total
    bytes: 2 GiB used of 1 GiB. *)
Definition env_used_above_total : cycle_env :=
  {| cpu_percent_out := Returns (25 # 2);
     cpu_freq_out := Returns (Some 2600);
     virtual_memory_out := Returns (mkSvmem (1 * GiB) (2 * GiB) 50);
     gt_cur_freq_out := Raises OSError;
     nvmlInit_out := Raises NVMLError;
     handle_out := Raises NVMLError;
     utilization_out := Raises NVMLError;
     memory_info_out := Raises NVMLError;
     temperature_out := Raises NVMLError;
     nvmlShutdown_out := Raises NVMLError;
     print_intel_out := Returns tt;
     print_nvidia_out := Returns tt |}.

(** A machine without any GPU and without the vendor modules. *)
Definition no_gpu_modules : modules :=
  {| NVIDIA_AVAILABLE := false; INTEL_GPU_AVAILABLE := false |}.

(** A laptop with an Intel GPU on which the NVIDIA module is installed
    but finds no device. *)
Definition laptop_modules : modules :=
  {| NVIDIA_AVAILABLE := true; INTEL_GPU_AVAILABLE := false |}.

Definition laptop_init_env : init_env :=
  {| cpuinfo_out :=
       Returns ["processor	: 0"%string;
                "model name	: Intel(R) Core(TM) i7-8550U CPU"%string];
     cpu_count_physical_out := Returns (Some 4%Z);
     cpu_count_logical_out := Returns (Some 8%Z);
     lspci_out :=
       Returns "00:02.0 VGA compatible controller: Intel Corporation UHD Graphics 620"%string;
     init_nvmlInit_out := Returns tt;
     init_handle_out := Raises NVMLError;
     device_name_out := Raises NVMLError;
     init_nvmlShutdown_out := Returns tt;
     init_print_cpu_out := Returns tt;
     init_print_intel_out := Returns tt;
     init_print_nvidia_out := Returns tt |}.

(** A cycle on that laptop: every source answers in range, the NVIDIA
    library finds no device. *)
Definition laptop_cycle_env : cycle_env :=
  {| cpu_percent_out := Returns (25 # 2);
     cpu_freq_out := Returns (Some 2600);
     virtual_memory_out := Returns (mkSvmem (16 * GiB) (8 * GiB) (125 # 2));
     gt_cur_freq_out := Returns 350%Z;
     nvmlInit_out := Returns tt;
     handle_out := Raises NVMLError;
     utilization_out := Raises NVMLError;
     memory_info_out := Raises NVMLError;
     temperature_out := Raises NVMLError;
     nvmlShutdown_out := Returns tt;
     print_intel_out := Returns tt;
     print_nvidia_out := Returns tt |}.

(** A cycle on a machine with a working NVIDIA GPU and an Intel GPU
    whose clock reads 350 MHz. *)
Definition nvidia_cycle_env : cycle_env :=
  {| cpu_percent_out := Returns 40;
     cpu_freq_out := Returns (Some 3200);
     virtual_memory_out := Returns (mkSvmem (32 * GiB) (12 * GiB) 41);
     gt_cur_freq_out := Returns 350%Z;
     nvmlInit_out := Returns tt;
     handle_out := Returns 1%Z;
     utilization_out := Returns 57%Z;
     memory_info_out := Returns (mkNvmlMemory (2 * GiB) (8 * GiB));
     temperature_out := Returns 70%Z;
     nvmlShutdown_out := Returns tt;
     print_intel_out := Returns tt;
     print_nvidia_out := Returns tt |}.

Definition nvidia_modules : modules :=
  {| NVIDIA_AVAILABLE := true; INTEL_GPU_AVAILABLE := false |}.

(** The construction on that machine: the NVIDIA library finds device 0
    and names it. *)
Definition nvidia_init_env : init_env :=
  {| cpuinfo_out :=
       Returns ["processor	: 0"%string;
                "model name	: Intel(R) Core(TM) i7-9750H CPU"%string];
     cpu_count_physical_out := Returns (Some 6%Z);
     cpu_count_logical_out := Returns (Some 12%Z);
     lspci_out :=
       Returns "00:02.0 VGA compatible controller: Intel Corporation UHD Graphics 630"%string;
     init_nvmlInit_out := Returns tt;
     init_handle_out := Returns 1%Z;
     device_name_out := Returns "NVIDIA GeForce GTX 1650"%string;
     init_nvmlShutdown_out := Returns tt;
     init_print_cpu_out := Returns tt;
     init_print_intel_out := Returns tt;
     init_print_nvidia_out := Returns tt |}.

(** What the Intel step stores when it reads the clock file: the clock
    over 1000 capped at 100, and 0 when the file cannot be read or holds
    a number too large for a float. *)
Definition intel_estimate (env : cycle_env) : Q :=
  match gt_cur_freq_out env with
  | Returns freq =>
      match float_of_int freq with
      | Returns clock => py_min (clock / 1000) 100
      | Raises _ => 0
      end
  | Raises _ => 0
  end.

(** An external call fails like a provider fails: when it raises, what it
    raises is an [Exception] (an error of the library or of the system),
    not an interrupt of the process. *)
Definition fails_with_error {A} (o : outcome A) : Prop :=
  match o with
  | Returns _ => True
  | Raises e => is_Exception e = true
  end.

(** The NVML calls that sit directly under [except Exception]. *)
Definition nvidia_fails_with_error (env : cycle_env) : Prop :=
  fails_with_error (nvmlInit_out env) /\
  fails_with_error (handle_out env) /\
  fails_with_error (utilization_out env) /\
  fails_with_error (memory_info_out env) /\
  fails_with_error (nvmlShutdown_out env).

(** The four NVIDIA figures of a snapshot. *)
Definition nvidia_figures (s : SystemInfo) : Q * Q * Q * Q :=
  (gpu_nvidia_usage s, gpu_nvidia_mem_used s, gpu_nvidia_mem_total s,
   gpu_nvidia_temp s).

(** The attributes outside the NVIDIA step. *)
Definition outside_nvidia (s : SystemInfo) :=
  (cpu_name s, cpu_cores s, cpu_threads s, cpu_usage s, cpu_freq s,
   (ram_total s, ram_used s, ram_percent s),
   (gpu_intel_name s, gpu_intel_usage s, gpu_intel_mem_used s),
   gpu_nvidia_name s).

(** A cycle in which the NVIDIA library fails at its first call while the
    Intel clock file cannot be read. *)
Definition gpu_failure_env : cycle_env :=
  {| cpu_percent_out := Returns 40;
     cpu_freq_out := Returns (Some 3200);
     virtual_memory_out := Returns (mkSvmem (32 * GiB) (12 * GiB) 41);
     gt_cur_freq_out := Raises OSError;
     nvmlInit_out := Raises NVMLError;
     handle_out := Returns 1%Z;
     utilization_out := Returns 60%Z;
     memory_info_out := Returns (mkNvmlMemory (3 * GiB) (8 * GiB));
     temperature_out := Returns 75%Z;
     nvmlShutdown_out := Returns tt;
     print_intel_out := Returns tt;
     print_nvidia_out := Returns tt |}.

(** The snapshot left by one cycle on that machine: NVIDIA usage 57, 2 of
    8 GiB, 70 degrees; Intel estimate 0.35. *)
Definition snapshot_after_nvidia_cycle : SystemInfo :=
  final (update_all nvidia_modules nvidia_cycle_env SystemInfo_default).

(** The same cycle on a standard output that cannot encode the message
    of the handler (it is in Cyrillic). *)
Definition gpu_failure_unprintable_env : cycle_env :=
  {| cpu_percent_out := Returns 40;
     cpu_freq_out := Returns (Some 3200);
     virtual_memory_out := Returns (mkSvmem (32 * GiB) (12 * GiB) 41);
     gt_cur_freq_out := Raises OSError;
     nvmlInit_out := Raises NVMLError;
     handle_out := Returns 1%Z;
     utilization_out := Returns 60%Z;
     memory_info_out := Returns (mkNvmlMemory (3 * GiB) (8 * GiB));
     temperature_out := Returns 75%Z;
     nvmlShutdown_out := Returns tt;
     print_intel_out := Returns tt;
     print_nvidia_out := Raises UnicodeEncodeError |}.

(** A cycle in which every NVML call answers but the temperature query. *)
Definition temperature_failure_env : cycle_env :=
  {| cpu_percent_out := Returns 35;
     cpu_freq_out := Returns (Some 3000);
     virtual_memory_out := Returns (mkSvmem (32 * GiB) (10 * GiB) 33);
     gt_cur_freq_out := Raises OSError;
     nvmlInit_out := Returns tt;
     handle_out := Returns 1%Z;
     utilization_out := Returns 80%Z;
     memory_info_out := Returns (mkNvmlMemory (4 * GiB) (8 * GiB));
     temperature_out := Raises NVMLError;
     nvmlShutdown_out := Returns tt;
     print_intel_out := Returns tt;
     print_nvidia_out := Returns tt |}.



(** The ten keys of the [/data] object. *)
Definition data_keys : list string :=
  [ "cpu_usage"; "cpu_freq"; "ram_used"; "ram_total"; "ram_percent";
    "gpu_intel_usage"; "gpu_nvidia_usage"; "gpu_nvidia_mem_used";
    "gpu_nvidia_mem_total"; "gpu_nvidia_temp" ]%string.

(** In a cycle the NVIDIA library finds no device: its initialisation or
    the request for device 0 raises. *)
Definition no_nvidia_device (env : cycle_env) : Prop :=
  (exists e, nvmlInit_out env = Raises e) \/
  (exists e, handle_out env = Raises e).

(** No NVIDIA GPU: the vendor module is missing, or it is there and no
    cycle finds a device. *)
Definition nvidia_absent (mods : modules) (envs : list cycle_env) : Prop :=
  NVIDIA_AVAILABLE mods = false \/ Forall no_nvidia_device envs.

(** No Intel GPU: the clock file of the driver cannot be read. *)
Definition intel_absent (envs : list cycle_env) : Prop :=
  Forall (fun env => exists e, gt_cur_freq_out env = Raises e) envs.

(** The figures of a GPU that is not there. *)
Definition nvidia_zero (s : SystemInfo) : Prop :=
  nvidia_figures s = (0, 0, 0, 0).

Definition intel_zero (s : SystemInfo) : Prop := gpu_intel_usage s = 0.

(** A machine without GPU. *)
Definition no_gpu_init_env : init_env :=
  {| cpuinfo_out :=
       Returns ["model name	: AMD Ryzen 5 3600 6-Core Processor"%string];
     cpu_count_physical_out := Returns (Some 6%Z);
     cpu_count_logical_out := Returns (Some 12%Z);
     lspci_out :=
       Returns "00:00.0 Host bridge: Advanced Micro Devices, Inc. Root Complex"%string;
     init_nvmlInit_out := Raises NVMLError;
     init_handle_out := Raises NVMLError;
     device_name_out := Raises NVMLError;
     init_nvmlShutdown_out := Raises NVMLError;
     init_print_cpu_out := Returns tt;
     init_print_intel_out := Returns tt;
     init_print_nvidia_out := Returns tt |}.

Definition no_gpu_cycle_env : cycle_env :=
  {| cpu_percent_out := Returns 7;
     cpu_freq_out := Returns (Some 3600);
     virtual_memory_out := Returns (mkSvmem (8 * GiB) (3 * GiB) 45);
     gt_cur_freq_out := Raises OSError;
     nvmlInit_out := Raises NVMLError;
     handle_out := Raises NVMLError;
     utilization_out := Raises NVMLError;
     memory_info_out := Raises NVMLError;
     temperature_out := Raises NVMLError;
     nvmlShutdown_out := Raises NVMLError;
     print_intel_out := Returns tt;
     print_nvidia_out := Returns tt |}.

(** ** The shared object seen from another thread *)

(** [update_loop] runs in a thread of its own while the HTTP handler runs
    in the threads of the server; both use the one [monitor.system_info]
    object and neither takes a lock.  Between two assignments of a cycle
    the updating thread calls out to psutil, the file system or NVML, so
    a request can be served in any of the states listed by [observable];
    the responses it can get are at least the following. *)
Definition responses_during (s : SystemInfo) (t : list event)
    : list (list (string * Q)) :=
  map get_data (observable s t).

(** The state of the object after the assignments of a trace. *)
Definition current (s : SystemInfo) (t : list event) : SystemInfo :=
  fold_left (fun cur ev => match ev with EvWrite _ a => a | _ => cur end) t s.

(** The value of an attribute, whatever its type. *)
Inductive value : Type :=
| VStr (s : string)
| VCount (n : option Z)
| VNum (q : Q).

Definition attr (f : field) (s : SystemInfo) : value :=
  match f with
  | F_cpu_name => VStr (cpu_name s)
  | F_cpu_cores => VCount (cpu_cores s)
  | F_cpu_threads => VCount (cpu_threads s)
  | F_cpu_usage => VNum (cpu_usage s)
  | F_cpu_freq => VNum (cpu_freq s)
  | F_ram_total => VNum (ram_total s)
  | F_ram_used => VNum (ram_used s)
  | F_ram_percent => VNum (ram_percent s)
  | F_gpu_intel_name => VStr (gpu_intel_name s)
  | F_gpu_intel_usage => VNum (gpu_intel_usage s)
  | F_gpu_intel_mem_used => VNum (gpu_intel_mem_used s)
  | F_gpu_nvidia_name => VStr (gpu_nvidia_name s)
  | F_gpu_nvidia_usage => VNum (gpu_nvidia_usage s)
  | F_gpu_nvidia_mem_used => VNum (gpu_nvidia_mem_used s)
  | F_gpu_nvidia_mem_total => VNum (gpu_nvidia_mem_total s)
  | F_gpu_nvidia_temp => VNum (gpu_nvidia_temp s)
  end.

(** Code that works on the shared object in place, within the attributes
    [F]: the object ends in the state of its last assignment, attributes
    outside [F] end as they began, and in every state another thread can
    see, each attribute has the value from before the code or, if it is
    in [F], the value the code leaves. *)
Definition in_place (F : field -> bool) {A} (m : M A) : Prop :=
  forall s,
    current s (trace (m s)) = final (m s) /\
    (forall f, F f = false -> attr f (final (m s)) = attr f s) /\
    Forall (fun x => forall f,
              attr f x = attr f s \/
              (F f = true /\ attr f x = attr f (final (m s))))
      (observable s (trace (m s))).

(** The attributes of the four steps of a cycle. *)
Definition cpu_fields (f : field) : bool :=
  match f with F_cpu_usage | F_cpu_freq => true | _ => false end.

Definition ram_fields (f : field) : bool :=
  match f with
  | F_ram_total | F_ram_used | F_ram_percent => true
  | _ => false
  end.

Definition intel_fields (f : field) : bool :=
  match f with
  | F_gpu_intel_usage | F_gpu_intel_mem_used => true
  | _ => false
  end.

Definition nvidia_fields (f : field) : bool :=
  match f with
  | F_gpu_nvidia_usage | F_gpu_nvidia_mem_used | F_gpu_nvidia_mem_total
  | F_gpu_nvidia_temp => true
  | _ => false
  end.

(** A key of [/data] carries a number equal to [q]. *)
Definition reports (d : list (string * Q)) (key : string) (q : Q) : Prop :=
  exists v, lookup key d = Some v /\ v == q.

(** ** [main]: the terminal mode *)

(** Truth value of a string in a condition: empty is false. *)
Definition truthy (s : string) : bool :=
  match s with
  | EmptyString => false
  | String _ _ => true
  end.

(** The lines [main] prints, each given by the values it shows; the text
    around the values and the rendering of the numbers are left out. *)
Inductive line : Type :=
| Line_title
| Line_double_rule
| Line_processor (name : string)
| Line_cores (cores threads : option Z)
| Line_intel_name (name : string)
| Line_nvidia_name (name : string)
| Line_exit_hint
| Line_blank
| Line_clear_screen
| Line_cpu (usage freq : Q)
| Line_ram (used total percent : Q)
| Line_intel (usage : Q)
| Line_nvidia (usage mem_used temp : Q)
| Line_rule
| Line_next_update
| Line_goodbye
| Line_error (e : pyexc).

(** What is printed once, after the monitor is built. *)
Definition header_lines (s : SystemInfo) : list line :=
  [Line_title; Line_double_rule; Line_processor (cpu_name s);
   Line_cores (cpu_cores s) (cpu_threads s)]
  ++ (if truthy (gpu_intel_name s)
      then [Line_intel_name (gpu_intel_name s)] else [])
  ++ (if truthy (gpu_nvidia_name s)
      then [Line_nvidia_name (gpu_nvidia_name s)] else [])
  ++ [Line_double_rule; Line_exit_hint; Line_blank].

(** What is printed after each cycle. *)
Definition report_lines (s : SystemInfo) : list line :=
  [Line_clear_screen;
   Line_cpu (cpu_usage s) (cpu_freq s);
   Line_ram (ram_used s) (ram_total s) (ram_percent s)]
  ++ (if truthy (gpu_intel_name s)
      then [Line_intel (gpu_intel_usage s)] else [])
  ++ (if truthy (gpu_nvidia_name s)
      then [Line_nvidia (gpu_nvidia_usage s) (gpu_nvidia_mem_used s)
              (gpu_nvidia_temp s)]
      else [])
  ++ [Line_rule; Line_next_update].

(** What happens at the terminal: the events of the monitor, the calls
    of [print] made by [main], each with its line, and its pauses. *)
Inductive terminal_event : Type :=
| Inner (ev : event)
| Shows (l : line)
| Sleeps (seconds : Z).

(** One [print] after the other, for the lines of a list; the call
    number [i] of the list returns or raises as [outs i] says, and the
    first that raises ends the list. *)
Fixpoint print_lines (ls : list line) (outs : nat -> outcome unit)
    (i : nat) : outcome unit * list terminal_event :=
  match ls with
  | [] => (Returns tt, [])
  | l :: rest =>
      match outs i with
      | Returns _ =>
          let later := print_lines rest outs (S i) in
          (fst later, Shows l :: snd later)
      | Raises e => (Raises e, [Shows l])
      end
  end.

(** What one iteration of the loop of [main] meets: the answers of the
    cycle, the results of the prints of the report and the result of
    [time.sleep(2)]. *)
Record tick : Type := mkTick {
  tick_env : cycle_env;
  tick_print_out : nat -> outcome unit;
  tick_sleep_out : outcome unit
}.

(** How a number of iterations of [while True] end: an exception leaves
    the loop, or the loop is still going. *)
Inductive loop_end : Type :=
| Left_by (e : pyexc)
| Looping.

Record loop_run : Type := mkLoopRun {
  loop_ended : loop_end;
  loop_state : SystemInfo;
  loop_screen : list terminal_event
}.

(** The first iterations of the loop of [main]: the cycle, the report,
    the pause; whatever one of them raises leaves the loop. *)
Fixpoint main_loop (mods : modules) (ticks : list tick) (s : SystemInfo)
    : loop_run :=
  match ticks with
  | [] => mkLoopRun Looping s []
  | t :: rest =>
      let r := update_all mods (tick_env t) s in
      match result r with
      | Raises e => mkLoopRun (Left_by e) (final r) (map Inner (trace r))
      | Returns _ =>
          let report :=
            print_lines (report_lines (final r)) (tick_print_out t) 0 in
          match fst report with
          | Raises e =>
              mkLoopRun (Left_by e) (final r)
                (map Inner (trace r) ++ snd report)
          | Returns _ =>
              let shown :=
                map Inner (trace r) ++ snd report ++ [Sleeps 2] in
              match tick_sleep_out t with
              | Raises e => mkLoopRun (Left_by e) (final r) shown
              | Returns _ =>
                  let later := main_loop mods rest (final r) in
                  mkLoopRun (loop_ended later) (loop_state later)
                    (shown ++ loop_screen later)
              end
          end
      end
  end.

(** How [main] ends. *)
Inductive exit : Type :=
| Returned
| Escaped (e : pyexc)
| Still_running.

Record main_run : Type := mkMainRun {
  main_exit : exit;
  main_state : SystemInfo;
  main_screen : list terminal_event
}.

(** The [print] of a handler of [main]: after it [main] returns, unless
    the print itself raises. *)
Definition closing (l : line) (o : outcome unit) (s : SystemInfo)
    (before : list terminal_event) : main_run :=
  match o with
  | Returns _ => mkMainRun Returned s (before ++ [Shows l])
  | Raises e => mkMainRun (Escaped e) s (before ++ [Shows l])
  end.

(** [main]: the monitor is built and the header printed outside the
    [try]; the loop runs under [except KeyboardInterrupt] and
    [except Exception], each of which prints one line.  [header_out]
    gives the results of the prints of the header, [closing_out] the
    result of the print of the handler that is reached. *)
Definition main (mods : modules) (ienv : init_env)
    (header_out : nat -> outcome unit) (ticks : list tick)
    (closing_out : outcome unit) : main_run :=
  let built := SystemMonitor_init mods ienv in
  match result built with
  | Raises e => mkMainRun (Escaped e) (final built) (map Inner (trace built))
  | Returns _ =>
      let header := print_lines (header_lines (final built)) header_out 0 in
      match fst header with
      | Raises e =>
          mkMainRun (Escaped e) (final built)
            (map Inner (trace built) ++ snd header)
      | Returns _ =>
          let l := main_loop mods ticks (final built) in
          let before :=
            map Inner (trace built) ++ snd header ++ loop_screen l in
          match loop_ended l with
          | Looping => mkMainRun Still_running (loop_state l) before
          | Left_by KeyboardInterrupt =>
              closing Line_goodbye closing_out (loop_state l) before
          | Left_by e =>
              if is_Exception e then
                closing (Line_error e) closing_out (loop_state l) before
              else mkMainRun (Escaped e) (loop_state l) before
          end
      end
  end.

(** ** More vocabulary *)

(** [sep.join(parts)]. *)
Fixpoint join (sep : ascii) (parts : list string) : string :=
  match parts with
  | [] => EmptyString
  | [p] => p
  | p :: rest => (p ++ String sep (join sep rest))%string
  end.

(** The character occurs in the string. *)
Fixpoint occurs (c : ascii) (s : string) : bool :=
  match s with
  | EmptyString => false
  | String d rest => Ascii.eqb d c || occurs c rest
  end.

Definition starts_with_space (s : string) : bool :=
  match s with
  | EmptyString => false
  | String c _ => is_space c
  end.

Fixpoint ends_with_space (s : string) : bool :=
  match s with
  | EmptyString => false
  | String c EmptyString => is_space c
  | String _ rest => ends_with_space rest
  end.

(** A name as the constructor stores it: no colon, no white space at
    either end. *)
Definition clean_name (s : string) : Prop :=
  occurs colon s = false /\
  starts_with_space s = false /\
  ends_with_space s = false.

(** The names [_init_cpu_info] and [_init_gpu_info] take from text. *)
Definition names_clean (s : SystemInfo) : Prop :=
  clean_name (cpu_name s) /\ clean_name (gpu_intel_name s).

(** A call answers: it returns a value. *)
Definition answers {A} (o : outcome A) : Prop :=
  match o with
  | Returns _ => True
  | Raises _ => False
  end.

(** Code that an [Exception] leaves only if it is one of [P]: it
    returns, or it is left by something that is no [Exception], or by
    an exception of [P]. *)
Definition escapes_only {A} (P : pyexc -> Prop) (m : M A) : Prop :=
  forall s e, result (m s) = Raises e -> is_Exception e = false \/ P e.

(** What one of the three prints of the constructor raised. *)
Definition raised_by_init_print (env : init_env) (e : pyexc) : Prop :=
  init_print_cpu_out env = Raises e \/
  init_print_intel_out env = Raises e \/
  init_print_nvidia_out env = Raises e.

(** Code whose course does not depend on the state of the shared object:
    its result and the calls it makes are the same from any state. *)
Definition oblivious {A} (m : M A) : Prop :=
  forall s1 s2,
    result (m s1) = result (m s2) /\
    calls_of (trace (m s1)) = calls_of (trace (m s2)).

(** A line about the NVIDIA GPU at the terminal. *)
Definition nvidia_line (ev : terminal_event) : bool :=
  match ev with
  | Shows (Line_nvidia_name _) | Shows (Line_nvidia _ _ _) => true
  | _ => false
  end.

(** A cycle that cannot end the loop of [update_loop]: the CPU and memory
    sources answer, the NVML calls fail with errors at most and the
    message of the NVIDIA handler can be printed. *)
Definition harmless (env : cycle_env) : Prop :=
  answers (cpu_percent_out env) /\
  answers (virtual_memory_out env) /\
  nvidia_fails_with_error env /\
  answers (print_nvidia_out env).

(** A standard output that takes every line. *)
Definition all_printed : nat -> outcome unit := fun _ => Returns tt.

(** An iteration of [main] in which the report is printed and the pause
    is not interrupted. *)
Definition quiet (t : tick) : Prop :=
  (forall i, answers (tick_print_out t i)) /\ answers (tick_sleep_out t).

(** A system on which [/proc/cpuinfo] cannot be opened. *)
Definition no_cpuinfo_init_env : init_env :=
  {| cpuinfo_out := Raises OSError;
     cpu_count_physical_out := Returns (Some 4%Z);
     cpu_count_logical_out := Returns (Some 8%Z);
     lspci_out := Raises OSError;
     init_nvmlInit_out := Raises NVMLError;
     init_handle_out := Raises NVMLError;
     device_name_out := Raises NVMLError;
     init_nvmlShutdown_out := Raises NVMLError;
     init_print_cpu_out := Returns tt;
     init_print_intel_out := Returns tt;
     init_print_nvidia_out := Returns tt |}.

(** A cycle in which [psutil.cpu_percent] fails. *)
Definition cpu_failure_env : cycle_env :=
  {| cpu_percent_out := Raises OSError;
     cpu_freq_out := Returns (Some 3200);
     virtual_memory_out := Returns (mkSvmem (32 * GiB) (12 * GiB) 41);
     gt_cur_freq_out := Returns 350%Z;
     nvmlInit_out := Returns tt;
     handle_out := Returns 1%Z;
     utilization_out := Returns 57%Z;
     memory_info_out := Returns (mkNvmlMemory (2 * GiB) (8 * GiB));
     temperature_out := Returns 70%Z;
     nvmlShutdown_out := Returns tt;
     print_intel_out := Returns tt;
     print_nvidia_out := Returns tt |}.

(** A cycle in which [psutil.virtual_memory] fails. *)
Definition memory_failure_env : cycle_env :=
  {| cpu_percent_out := Returns 40;
     cpu_freq_out := Returns (Some 3200);
     virtual_memory_out := Raises OSError;
     gt_cur_freq_out := Returns 350%Z;
     nvmlInit_out := Returns tt;
     handle_out := Returns 1%Z;
     utilization_out := Returns 57%Z;
     memory_info_out := Returns (mkNvmlMemory (2 * GiB) (8 * GiB));
     temperature_out := Returns 70%Z;
     nvmlShutdown_out := Returns tt;
     print_intel_out := Returns tt;
     print_nvidia_out := Returns tt |}.

(** Two iterations at the terminal, the second pause interrupted by
    Ctrl-C. *)
Definition two_ticks_then_ctrl_c : list tick :=
  [ mkTick laptop_cycle_env all_printed (Returns tt);
    mkTick laptop_cycle_env all_printed (Raises KeyboardInterrupt) ].

(** A cycle in which the NVML memory query fails after the utilization
    query answered. *)
Definition memory_query_failure_env : cycle_env :=
  {| cpu_percent_out := Returns 20;
     cpu_freq_out := Returns (Some 3000);
     virtual_memory_out := Returns (mkSvmem (32 * GiB) (10 * GiB) 33);
     gt_cur_freq_out := Returns 350%Z;
     nvmlInit_out := Returns tt;
     handle_out := Returns 1%Z;
     utilization_out := Returns 90%Z;
     memory_info_out := Raises NVMLError;
     temperature_out := Returns 80%Z;
     nvmlShutdown_out := Returns tt;
     print_intel_out := Returns tt;
     print_nvidia_out := Returns tt |}.

(** A cycle whose Intel clock file holds a number too large for a
    float: 10 to the power 400. *)
Definition huge_clock_env : cycle_env :=
  {| cpu_percent_out := Returns 20;
     cpu_freq_out := Returns (Some 3000);
     virtual_memory_out := Returns (mkSvmem (32 * GiB) (10 * GiB) 33);
     gt_cur_freq_out := Returns (10 ^ 400)%Z;
     nvmlInit_out := Raises NVMLError;
     handle_out := Raises NVMLError;
     utilization_out := Raises NVMLError;
     memory_info_out := Raises NVMLError;
     temperature_out := Raises NVMLError;
     nvmlShutdown_out := Raises NVMLError;
     print_intel_out := Returns tt;
     print_nvidia_out := Returns tt |}.

(** A system on which [/proc/cpuinfo] cannot be opened and standard
    output cannot encode the error messages. *)
Definition unprintable_init_env : init_env :=
  {| cpuinfo_out := Raises OSError;
     cpu_count_physical_out := Returns (Some 4%Z);
     cpu_count_logical_out := Returns (Some 8%Z);
     lspci_out := Raises OSError;
     init_nvmlInit_out := Raises NVMLError;
     init_handle_out := Raises NVMLError;
     device_name_out := Raises NVMLError;
     init_nvmlShutdown_out := Raises NVMLError;
     init_print_cpu_out := Raises UnicodeEncodeError;
     init_print_intel_out := Raises UnicodeEncodeError;
     init_print_nvidia_out := Raises UnicodeEncodeError |}.

(** * Proofs *)

(** ** Rules for [keeps] *)

Section KeepsRules.

Variable I : SystemInfo -> Prop.
Variable P : event -> Prop.

Lemma keeps_ret {A} (a : A) : keeps I P (ret a).
Proof. intros s Hs; split; [exact Hs | constructor]. Qed.

Lemma keeps_raise {A} (e : pyexc) : keeps I P (@raise A e).
Proof. intros s Hs; split; [exact Hs | constructor]. Qed.

Lemma keeps_extern {A} (c : call) (o : outcome A) :
  P (EvCall c) -> keeps I P (extern c o).
Proof. intros Hc s Hs; split; [exact Hs | repeat constructor; exact Hc]. Qed.

Lemma keeps_print (m : message) (e : pyexc) (o : outcome unit) :
  P (EvPrint m e) -> keeps I P (print m e o).
Proof. intros Hp s Hs; split; [exact Hs | repeat constructor; exact Hp]. Qed.

Lemma keeps_compute {A} (o : outcome A) : keeps I P (compute o).
Proof. intros s Hs; split; [exact Hs | constructor]. Qed.

Lemma keeps_assign {V} (f : field) (set : V -> SystemInfo -> SystemInfo)
    (v : V) :
  (forall s, I s -> I (set v s) /\ P (EvWrite f (set v s))) ->
  keeps I P (assign f set v).
Proof.
  intros H s Hs. destruct (H s Hs) as [Hi Hp].
  split; [exact Hi | repeat constructor; exact Hp].
Qed.

Lemma keeps_bind {A B} (m : M A) (k : A -> M B) :
  keeps I P m -> (forall a, keeps I P (k a)) -> keeps I P (bind m k).
Proof.
  intros Hm Hk s Hs. destruct (Hm s Hs) as [Hi Ht].
  unfold bind. destruct (result (m s)) as [a | e]; cbn.
  - destruct (Hk a _ Hi) as [Hi' Ht'].
    split; [exact Hi' | apply Forall_app; split; assumption].
  - split; assumption.
Qed.

Lemma keeps_try_except {A} (body : M A) (catches : pyexc -> bool)
    (handler : pyexc -> M A) :
  keeps I P body -> (forall e, keeps I P (handler e)) ->
  keeps I P (try_except body catches handler).
Proof.
  intros Hb Hh s Hs. destruct (Hb s Hs) as [Hi Ht].
  unfold try_except. destruct (result (body s)) as [a | e].
  - split; assumption.
  - destruct (catches e).
    + destruct (Hh e _ Hi) as [Hi' Ht']. cbn.
      split; [exact Hi' | apply Forall_app; split; assumption].
    + split; assumption.
Qed.

End KeepsRules.

(** Breaks a goal [keeps I P code] down along the structure of the code. *)
Ltac keeps_structure :=
  repeat first
    [ apply keeps_bind; [ | intros ? ]
    | apply keeps_try_except; [ | intros ? ]
    | apply keeps_ret
    | apply keeps_raise
    | apply keeps_compute
    | match goal with
      | |- keeps _ _ (match ?x with _ => _ end) => destruct x
      | |- keeps _ _ (if ?b then _ else _) => destruct b
      end ].

(** ** Static attributes (C9) *)

Lemma update_all_dynamic (mods : modules) (env : cycle_env) (s0 : SystemInfo) :
  keeps (same_static s0) (dynamic_event s0) (update_all mods env).
Proof.
  unfold update_all, update_cpu_info, update_ram_info,
    update_intel_gpu_info, update_nvidia_gpu_info.
  keeps_structure;
    first
      [ apply keeps_extern; reflexivity
      | apply keeps_print; exact Logic.I
      | apply keeps_assign; intros s Hs; split; [ | split ];
        solve [ reflexivity | exact Hs ] ].
Qed.

Lemma same_static_refl (s : SystemInfo) : same_static s s.
Proof. repeat split. Qed.

(** C9. Every invocation of [update_all], whatever the sources answer and
    whether it returns or raises, leaves [cpu_name], [cpu_cores],
    [cpu_threads], [gpu_intel_name] and [gpu_nvidia_name] as they were;
    no assignment of the cycle targets one of them, no intermediate state
    differs on them, and the cycle repeats none of the identification
    probes of the constructor. *)
Theorem update_all_keeps_static_fields (mods : modules) (env : cycle_env)
    (s : SystemInfo) :
  let r := update_all mods env s in
  cpu_name (final r) = cpu_name s /\
  cpu_cores (final r) = cpu_cores s /\
  cpu_threads (final r) = cpu_threads s /\
  gpu_intel_name (final r) = gpu_intel_name s /\
  gpu_nvidia_name (final r) = gpu_nvidia_name s /\
  Forall (fun f => is_static f = false) (written (trace r)) /\
  Forall (same_static s) (observable s (trace r)) /\
  Forall (fun c => is_identification_probe c = false) (calls_of (trace r)).
Proof.
  intros r.
  destruct (update_all_dynamic mods env s s (same_static_refl s)) as [Hf Ht].
  fold r in Hf, Ht.
  destruct Hf as (H1 & H2 & H3 & H4 & H5).
  repeat (split; [assumption | ]).
  unfold written, observable, calls_of.
  split; [ | split ].
  - induction Ht as [ | ev t Hev _ IH]; [constructor | ].
    destruct ev; cbn in *; try exact IH. constructor; tauto.
  - constructor; [apply same_static_refl | ].
    induction Ht as [ | ev t Hev _ IH]; [constructor | ].
    destruct ev; cbn in *; try exact IH. constructor; tauto.
  - induction Ht as [ | ev t Hev _ IH]; [constructor | ].
    destruct ev; cbn in *; try exact IH. constructor; tauto.
Qed.

(** ** The range invariant (C1) *)

Section KeepsMore.

Variable I : SystemInfo -> Prop.
Variable P : event -> Prop.

(** A call followed by code that uses its value: the code is only run on
    the value the environment holds. *)
Lemma keeps_bind_extern {A B} (c : call) (o : outcome A) (k : A -> M B) :
  P (EvCall c) ->
  (forall a, o = Returns a -> keeps I P (k a)) ->
  keeps I P (bind (extern c o) k).
Proof.
  intros Hc Hk s Hs. unfold bind, extern; cbn.
  destruct o as [a | e]; cbn.
  - destruct (Hk a eq_refl s Hs) as [Hi Ht].
    split; [exact Hi | constructor; assumption].
  - split; [exact Hs | repeat constructor; exact Hc].
Qed.

(** The same for a computation that may raise. *)
Lemma keeps_bind_compute {A B} (o : outcome A) (k : A -> M B) :
  (forall a, o = Returns a -> keeps I P (k a)) ->
  keeps I P (bind (compute o) k).
Proof.
  intros Hk s Hs. unfold bind, compute; cbn.
  destruct o as [a | e]; cbn.
  - exact (Hk a eq_refl s Hs).
  - split; [exact Hs | constructor].
Qed.

(** Two assignments in a row, between which the property may be broken. *)
Lemma keeps_assign_twice {V W B} (f1 f2 : field)
    (set1 : V -> SystemInfo -> SystemInfo)
    (set2 : W -> SystemInfo -> SystemInfo) (v1 : V) (v2 : W) (k : M B) :
  (forall s, I s -> I (set2 v2 (set1 v1 s))) ->
  (forall s, P (EvWrite f1 s)) -> (forall s, P (EvWrite f2 s)) ->
  keeps I P k ->
  keeps I P
    (bind (assign f1 set1 v1)
       (fun _ => bind (assign f2 set2 v2) (fun _ => k))).
Proof.
  intros H12 Hp1 Hp2 Hk s Hs. unfold bind, assign; cbn.
  destruct (Hk _ (H12 s Hs)) as [Hi Ht].
  destruct (result (k (set2 v2 (set1 v1 s)))); cbn;
    (split; [exact Hi | do 2 (constructor; [auto | ]); exact Ht]).
Qed.

End KeepsMore.

Lemma GiB_quotient_le (a b : Z) :
  (a <= b)%Z -> inject_Z a / inject_Z GiB <= inject_Z b / inject_Z GiB.
Proof.
  intros Hab. unfold Qdiv. apply Qmult_le_compat_r.
  - rewrite <- Zle_Qle. exact Hab.
  - discriminate.
Qed.

Lemma percentage_inject_Z (u : Z) :
  (0 <= u <= 100)%Z -> percentage (inject_Z u).
Proof.
  intros [H0 H100]. split.
  - change 0 with (inject_Z 0). rewrite <- Zle_Qle. exact H0.
  - change 100 with (inject_Z 100). rewrite <- Zle_Qle. exact H100.
Qed.

Lemma percentage_0 : percentage 0.
Proof. split; discriminate. Qed.

Lemma float_of_int_returns (n : Z) (q : Q) :
  float_of_int n = Returns q -> q = inject_Z n.
Proof.
  unfold float_of_int.
  destruct (Z.abs n <? 2 ^ 1024 - 2 ^ 970)%Z; [ | discriminate].
  intros H. injection H as <-. reflexivity.
Qed.

(** The Intel estimate is a percentage as soon as the clock read is not
    negative: [min] caps it at 100. *)
Lemma percentage_intel_estimate (freq : Z) :
  (0 <= freq)%Z -> percentage (py_min (inject_Z freq / 1000) 100).
Proof.
  intros Hf. unfold py_min.
  destruct (Qle_bool (inject_Z freq / 1000) 100) eqn:E.
  - split; [ | apply Qle_bool_iff; exact E].
    unfold Qdiv. apply Qmult_le_0_compat; [ | discriminate].
    change 0 with (inject_Z 0). rewrite <- Zle_Qle. exact Hf.
  - split; [discriminate | apply Qle_refl].
Qed.

Ltac ok_assign :=
  apply keeps_assign; intros ? ?; split; [ | exact Logic.I];
  unfold snapshot_ok in *; cbn; tauto.

Lemma update_cpu_info_ok (env : cycle_env) :
  valid_env env -> keeps snapshot_ok any_event (update_cpu_info env).
Proof.
  intros (Hcpu & _). unfold update_cpu_info.
  apply keeps_bind_extern; [exact Logic.I | intros usage Hu].
  rewrite Hu in Hcpu; cbn in Hcpu.
  apply keeps_bind; [ok_assign | intros _].
  apply keeps_try_except; [ | intros _; ok_assign].
  apply keeps_bind_extern; [exact Logic.I | intros [current | ] _].
  - ok_assign.
  - apply keeps_ret.
Qed.

Lemma update_ram_info_ok (env : cycle_env) :
  valid_env env -> keeps snapshot_ok any_event (update_ram_info env).
Proof.
  intros (_ & Hmem & _). unfold update_ram_info.
  apply keeps_bind_extern; [exact Logic.I | intros mem Hm].
  rewrite Hm in Hmem; cbn in Hmem. destruct Hmem as [Hle Hpct].
  apply keeps_assign_twice; try (intros; exact Logic.I).
  - intros s Hs. unfold snapshot_ok in *; cbn.
    split; [apply GiB_quotient_le; exact Hle | tauto].
  - ok_assign.
Qed.

Lemma update_intel_gpu_info_ok (mods : modules) (env : cycle_env) :
  valid_env env ->
  keeps snapshot_ok any_event (update_intel_gpu_info mods env).
Proof.
  intros (_ & _ & Hfreq & _). unfold update_intel_gpu_info.
  pose proof percentage_0 as H0.
  destruct (INTEL_GPU_AVAILABLE mods).
  - apply keeps_try_except; [ | intros e; apply keeps_print; exact Logic.I].
    apply keeps_bind; [ok_assign | intros _; ok_assign].
  - apply keeps_try_except; [ | intros _; ok_assign].
    apply keeps_bind_extern; [exact Logic.I | intros freq Hf].
    rewrite Hf in Hfreq; cbn in Hfreq.
    apply keeps_bind_compute. intros clock Hclock.
    apply float_of_int_returns in Hclock. subst clock.
    pose proof (percentage_intel_estimate freq Hfreq) as Hp.
    ok_assign.
Qed.

Lemma update_nvidia_gpu_info_ok (mods : modules) (env : cycle_env) :
  valid_env env ->
  keeps snapshot_ok any_event (update_nvidia_gpu_info mods env).
Proof.
  intros (_ & _ & _ & Hutil & Hmem). unfold update_nvidia_gpu_info.
  destruct (negb (NVIDIA_AVAILABLE mods)); [apply keeps_ret | ].
  apply keeps_try_except; [ | intros e; apply keeps_print; exact Logic.I].
  apply keeps_bind; [apply keeps_extern; exact Logic.I | intros _].
  apply keeps_bind_extern; [exact Logic.I | intros h _].
  apply keeps_bind_extern; [exact Logic.I | intros u Hu].
  rewrite Hu in Hutil; cbn in Hutil.
  pose proof (percentage_inject_Z u Hutil) as Hp.
  apply keeps_bind; [ok_assign | intros _].
  apply keeps_bind_extern; [exact Logic.I | intros memory Hm].
  rewrite Hm in Hmem; cbn in Hmem.
  apply keeps_assign_twice; try (intros; exact Logic.I).
  - intros s Hs. unfold snapshot_ok in *; cbn.
    split; [tauto | split; [apply GiB_quotient_le; exact Hmem | tauto]].
  - apply keeps_bind; [ | intros _; apply keeps_extern; exact Logic.I].
    apply keeps_try_except; [ | intros _; ok_assign].
    apply keeps_bind_extern; [exact Logic.I | intros temp _]. ok_assign.
Qed.

Lemma update_all_ok (mods : modules) (env : cycle_env) :
  valid_env env -> keeps snapshot_ok any_event (update_all mods env).
Proof.
  intros Hv. unfold update_all.
  apply keeps_bind; [apply update_cpu_info_ok; exact Hv | intros _].
  apply keeps_bind; [apply update_ram_info_ok; exact Hv | intros _].
  apply keeps_bind; [apply update_intel_gpu_info_ok; exact Hv | intros _].
  apply update_nvidia_gpu_info_ok; exact Hv.
Qed.

Lemma update_loop_ok (mods : modules) (envs : list cycle_env) :
  Forall valid_env envs -> keeps snapshot_ok any_event (update_loop mods envs).
Proof.
  induction 1 as [ | env rest Hv _ IH]; cbn [update_loop].
  - apply keeps_ret.
  - apply keeps_bind; [apply update_all_ok; exact Hv | intros _; exact IH].
Qed.

(** The constructor only assigns names and core counts. *)
Lemma SystemMonitor_init_ok (mods : modules) (env : init_env) :
  snapshot_ok (final (SystemMonitor_init mods env)).
Proof.
  assert (H0 : snapshot_ok SystemInfo_default).
  { unfold snapshot_ok; cbn. pose proof percentage_0.
    repeat split; solve [assumption | discriminate]. }
  assert (K : keeps snapshot_ok any_event
                (bind (_init_cpu_info env) (fun _ => _init_gpu_info mods env))).
  { unfold _init_cpu_info, _init_gpu_info.
    keeps_structure;
      first [ apply keeps_extern; exact Logic.I
            | apply keeps_print; exact Logic.I
            | ok_assign ]. }
  exact (proj1 (K _ H0)).
Qed.

(** C1, as the code has it.  The code copies the readings of its sources
    and only caps the Intel estimate at 100.  When the readings of every
    cycle are in range (used bytes within total bytes for memory and for
    NVIDIA memory, the CPU, memory and NVIDIA percentages within 0 and
    100, the Intel clock not negative), the snapshot after any number of
    cycles of a freshly constructed monitor has used memory within total
    memory, for system and NVIDIA memory, and its four usage figures
    within 0 and 100. *)
Theorem valid_readings_give_valid_snapshots (mods : modules)
    (ienv : init_env) (envs : list cycle_env) :
  Forall valid_env envs ->
  snapshot_ok
    (final (update_loop mods envs (final (SystemMonitor_init mods ienv)))).
Proof.
  intros Hv.
  exact (proj1 (update_loop_ok mods envs Hv _
                  (SystemMonitor_init_ok mods ienv))).
Qed.

(** Comparisons between rational constants. *)
Ltac q_compare := unfold Qle, Qlt; cbn; lia.

Lemma laptop_cycle_env_valid : valid_env laptop_cycle_env.
Proof.
  unfold valid_env, returned, percentage; cbn.
  repeat split; solve [q_compare | lia | exact Logic.I].
Qed.

Lemma valid_readings_give_valid_snapshots_witness :
  Forall valid_env [laptop_cycle_env; laptop_cycle_env] /\
  snapshot_ok
    (final (update_loop laptop_modules [laptop_cycle_env; laptop_cycle_env]
              (final (SystemMonitor_init laptop_modules laptop_init_env)))).
Proof.
  assert (H : Forall valid_env [laptop_cycle_env; laptop_cycle_env]).
  { repeat constructor; apply laptop_cycle_env_valid. }
  split.
  - exact H.
  - exact (valid_readings_give_valid_snapshots laptop_modules
             laptop_init_env _ H).
Defined.

(** C1 as stated fails: nothing in the cycle clamps or compares the
    readings.  From the default snapshot, a memory reading of 2 GiB used
    of 1 GiB total completes the cycle and leaves [ram_used] = 2 above
    [ram_total] = 1. *)
Lemma used_above_total_is_copied :
  snapshot_ok SystemInfo_default /\
  result (update_all no_gpu_modules env_used_above_total SystemInfo_default)
    = Returns tt /\
  ~ snapshot_ok
      (final (update_all no_gpu_modules env_used_above_total
                SystemInfo_default)).
Proof.
  split; [ | split ].
  - unfold snapshot_ok, percentage; cbn. repeat split; q_compare.
  - reflexivity.
  - intros (H & _). revert H. cbn. q_compare.
Qed.

(** ** Running the cycle by cases *)

(** Unfolds the code of the cycle down to the outcomes of its calls. *)
Ltac unfold_cycle :=
  cbv beta iota zeta delta
    [update_all update_cpu_info update_ram_info update_intel_gpu_info
     update_nvidia_gpu_info bind extern assign ret raise print compute
     try_except except_all except_Exception result final trace negb].

(** ** The four steps of the cycle, one by one *)

Lemma bind_returns {A B} (m : M A) (k : A -> M B) (s : SystemInfo) (a : A) :
  result (m s) = Returns a ->
  result (bind m k s) = result (k a (final (m s))) /\
  final (bind m k s) = final (k a (final (m s))) /\
  trace (bind m k s) = trace (m s) ++ trace (k a (final (m s))).
Proof. intros H. unfold bind. rewrite H. cbn. repeat split. Qed.

(** The CPU step returns as soon as [cpu_percent] does. *)
Lemma update_cpu_info_run (env : cycle_env) (s : SystemInfo) (c : Q) :
  cpu_percent_out env = Returns c ->
  result (update_cpu_info env s) = Returns tt /\
  final (update_cpu_info env s) =
    match cpu_freq_out env with
    | Returns (Some current) => set_cpu_freq current (set_cpu_usage c s)
    | Returns None => set_cpu_usage c s
    | Raises _ => set_cpu_freq 0 (set_cpu_usage c s)
    end.
Proof.
  intros Hc. unfold_cycle. rewrite Hc.
  cbv beta iota zeta delta [result final trace].
  destruct (cpu_freq_out env) as [[current | ] | e]; split; reflexivity.
Qed.

Lemma update_ram_info_run (env : cycle_env) (s : SystemInfo) (m : svmem) :
  virtual_memory_out env = Returns m ->
  result (update_ram_info env s) = Returns tt /\
  final (update_ram_info env s) =
    set_ram_percent (percent m)
      (set_ram_used (inject_Z (used m) / inject_Z GiB)
         (set_ram_total (inject_Z (total m) / inject_Z GiB) s)).
Proof.
  intros Hm. unfold_cycle. rewrite Hm. split; reflexivity.
Qed.

(** The Intel step never raises. *)
Lemma update_intel_gpu_info_run (mods : modules) (env : cycle_env)
    (s : SystemInfo) :
  result (update_intel_gpu_info mods env s) = Returns tt /\
  final (update_intel_gpu_info mods env s) =
    if INTEL_GPU_AVAILABLE mods then
      set_gpu_intel_mem_used 0 (set_gpu_intel_usage 0 s)
    else set_gpu_intel_usage (intel_estimate env) s.
Proof.
  unfold_cycle. unfold intel_estimate.
  destruct (INTEL_GPU_AVAILABLE mods); [split; reflexivity | ].
  destruct (gt_cur_freq_out env) as [freq | e]; [ | split; reflexivity].
  destruct (float_of_int freq); split; reflexivity.
Qed.

(** The NVIDIA step is followed call by call, in the order of the code:
    a call that raises ends the case, a call that returns leads on to the
    next one. *)
Ltac nvidia_path env finish :=
  destruct (nvmlInit_out env) as [[] | []]; [ | finish ..];
  destruct (handle_out env) as [? | []]; [ | finish ..];
  destruct (utilization_out env) as [? | []]; [ | finish ..];
  destruct (memory_info_out env) as [? | []]; [ | finish ..];
  destruct (temperature_out env) as [? | ?];
  destruct (nvmlShutdown_out env) as [[] | []]; finish.

(** The NVIDIA step assigns NVIDIA figures only. *)
Lemma update_nvidia_gpu_info_frame (mods : modules) (env : cycle_env)
    (s : SystemInfo) :
  outside_nvidia (final (update_nvidia_gpu_info mods env s)) =
  outside_nvidia s.
Proof.
  unfold update_nvidia_gpu_info.
  destruct (NVIDIA_AVAILABLE mods); [ | reflexivity].
  cbv beta iota delta [negb].
  nvidia_path env ltac:(reflexivity).
Qed.

Lemma outside_nvidia_dynamic (s s' : SystemInfo) :
  outside_nvidia s' = outside_nvidia s ->
  cpu_usage s' = cpu_usage s /\ cpu_freq s' = cpu_freq s /\
  ram_total s' = ram_total s /\ ram_used s' = ram_used s /\
  ram_percent s' = ram_percent s /\
  gpu_intel_usage s' = gpu_intel_usage s /\
  gpu_intel_mem_used s' = gpu_intel_mem_used s.
Proof.
  unfold outside_nvidia. intros H. injection H as ? ? ? ? ? ? ? ? ? ? ? ?.
  repeat split; assumption.
Qed.

(** What it leaves in the NVIDIA figures depends on the NVIDIA figures
    before it only. *)
Lemma update_nvidia_gpu_info_local (mods : modules) (env : cycle_env)
    (s1 s2 : SystemInfo) :
  nvidia_figures s1 = nvidia_figures s2 ->
  nvidia_figures (final (update_nvidia_gpu_info mods env s1)) =
  nvidia_figures (final (update_nvidia_gpu_info mods env s2)).
Proof.
  intros H. unfold update_nvidia_gpu_info.
  destruct (NVIDIA_AVAILABLE mods); [ | exact H].
  cbv beta iota delta [negb].
  unfold nvidia_figures in H. injection H as H1 H2 H3 H4.
  nvidia_path env ltac:(cbn; unfold nvidia_figures; cbn; congruence).
Qed.

(** It returns when its calls fail with errors only and the message of
    its handler can be printed. *)
Lemma update_nvidia_gpu_info_returns (mods : modules) (env : cycle_env)
    (s : SystemInfo) :
  nvidia_fails_with_error env ->
  answers (print_nvidia_out env) ->
  result (update_nvidia_gpu_info mods env s) = Returns tt.
Proof.
  unfold nvidia_fails_with_error, fails_with_error, update_nvidia_gpu_info.
  destruct (NVIDIA_AVAILABLE mods); [ | reflexivity].
  cbv beta iota delta [negb].
  destruct (print_nvidia_out env) as [[] | e0];
    [ | intros _ Hp; destruct Hp].
  nvidia_path env
    ltac:(intros (Hi & Hh & Hu & Hm & Hsh) _;
          solve [reflexivity | discriminate]).
Qed.

(** When its calls fail with errors only, what leaves it was raised by
    the print of its handler. *)
Lemma update_nvidia_gpu_info_raises (mods : modules) (env : cycle_env)
    (s : SystemInfo) (e : pyexc) :
  nvidia_fails_with_error env ->
  result (update_nvidia_gpu_info mods env s) = Raises e ->
  print_nvidia_out env = Raises e.
Proof.
  unfold nvidia_fails_with_error, fails_with_error, update_nvidia_gpu_info.
  destruct (NVIDIA_AVAILABLE mods); [ | intros _ H; discriminate H].
  cbv beta iota delta [negb].
  nvidia_path env
    ltac:(cbn; intros (Hi & Hh & Hu & Hm & Hsh) H;
          solve [exact H | discriminate]).
Qed.

(** The state in which the NVIDIA step starts, in a cycle whose CPU and
    memory sources answer. *)
Lemma update_all_run (mods : modules) (env : cycle_env) (s : SystemInfo)
    (c : Q) (m : svmem) :
  cpu_percent_out env = Returns c ->
  virtual_memory_out env = Returns m ->
  let s3 := final (update_intel_gpu_info mods env
                     (final (update_ram_info env
                               (final (update_cpu_info env s))))) in
  result (update_all mods env s) = result (update_nvidia_gpu_info mods env s3)
  /\ final (update_all mods env s) = final (update_nvidia_gpu_info mods env s3).
Proof.
  intros Hc Hm s3. unfold update_all.
  destruct (update_cpu_info_run env s c Hc) as [R1 _].
  destruct (bind_returns _ (fun _ => update_ram_info env ;;
      update_intel_gpu_info mods env ;; update_nvidia_gpu_info mods env)
      s tt R1) as (-> & -> & _).
  destruct (update_ram_info_run env (final (update_cpu_info env s)) m Hm)
    as [R2 _].
  destruct (bind_returns _ (fun _ => update_intel_gpu_info mods env ;;
      update_nvidia_gpu_info mods env) _ tt R2) as (-> & -> & _).
  destruct (update_intel_gpu_info_run mods env
              (final (update_ram_info env (final (update_cpu_info env s)))))
    as [R3 _].
  destruct (bind_returns _ (fun _ => update_nvidia_gpu_info mods env) _ tt
              R3) as (-> & -> & _).
  split; reflexivity.
Qed.

(** The attributes outside the NVIDIA step after a whole cycle whose CPU
    and memory sources answer, whatever the NVIDIA step does. *)
Lemma update_all_outside_nvidia (mods : modules) (env : cycle_env)
    (s : SystemInfo) (c : Q) (m : svmem) :
  cpu_percent_out env = Returns c ->
  virtual_memory_out env = Returns m ->
  let s' := final (update_all mods env s) in
  cpu_usage s' = c /\
  cpu_freq s' =
    match cpu_freq_out env with
    | Returns (Some current) => current
    | Returns None => cpu_freq s
    | Raises _ => 0
    end /\
  ram_total s' = inject_Z (total m) / inject_Z GiB /\
  ram_used s' = inject_Z (used m) / inject_Z GiB /\
  ram_percent s' = percent m /\
  gpu_intel_usage s' =
    (if INTEL_GPU_AVAILABLE mods then 0 else intel_estimate env) /\
  gpu_intel_mem_used s' =
    (if INTEL_GPU_AVAILABLE mods then 0 else gpu_intel_mem_used s).
Proof.
  intros Hc Hm s'. subst s'.
  rewrite (proj2 (update_all_run mods env s c m Hc Hm)).
  pose proof (update_nvidia_gpu_info_frame mods env
    (final (update_intel_gpu_info mods env
       (final (update_ram_info env (final (update_cpu_info env s))))))) as F.
  apply outside_nvidia_dynamic in F.
  destruct F as (-> & -> & -> & -> & -> & -> & ->).
  rewrite (proj2 (update_intel_gpu_info_run mods env _)).
  rewrite (proj2 (update_ram_info_run env _ m Hm)).
  rewrite (proj2 (update_cpu_info_run env s c Hc)).
  destruct (INTEL_GPU_AVAILABLE mods);
    destruct (cpu_freq_out env) as [[current | ] | e];
    destruct (gt_cur_freq_out env);
    repeat split.
Qed.

(** ** Isolation of GPU failures (C3) *)

(** C3, as the code has it.  In a cycle whose CPU and memory sources
    answer, whatever the two GPU sources do (return or fail with an
    error, at any of their calls), [cpu_usage] and the three memory
    attributes hold this cycle's readings, [cpu_freq] is set from this
    cycle's frequency call, the Intel attributes are those the Intel step
    determines on its own and the four NVIDIA figures are those the NVIDIA
    step alone would leave: a failure of one GPU source reaches neither
    the CPU and memory attributes nor the other GPU's.  The cycle returns
    when the message of the NVIDIA handler can be printed; the only thing
    that can leave it is what that [print] raises. *)
Theorem gpu_failure_is_isolated (mods : modules) (env : cycle_env)
    (s : SystemInfo) (c : Q) (m : svmem) :
  cpu_percent_out env = Returns c ->
  virtual_memory_out env = Returns m ->
  nvidia_fails_with_error env ->
  let r := update_all mods env s in
  (answers (print_nvidia_out env) -> result r = Returns tt) /\
  (forall e, result r = Raises e -> print_nvidia_out env = Raises e) /\
  cpu_usage (final r) = c /\
  cpu_freq (final r) =
    match cpu_freq_out env with
    | Returns (Some current) => current
    | Returns None => cpu_freq s
    | Raises _ => 0
    end /\
  ram_total (final r) = inject_Z (total m) / inject_Z GiB /\
  ram_used (final r) = inject_Z (used m) / inject_Z GiB /\
  ram_percent (final r) = percent m /\
  gpu_intel_usage (final r) =
    (if INTEL_GPU_AVAILABLE mods then 0 else intel_estimate env) /\
  gpu_intel_mem_used (final r) =
    (if INTEL_GPU_AVAILABLE mods then 0 else gpu_intel_mem_used s) /\
  nvidia_figures (final r) =
    nvidia_figures (final (update_nvidia_gpu_info mods env s)).
Proof.
  intros Hc Hm Hnv r.
  pose proof (update_all_outside_nvidia mods env s c m Hc Hm) as H.
  cbv zeta in H. fold r in H.
  destruct (update_all_run mods env s c m Hc Hm) as [R F].
  split.
  { intros Hp. subst r. rewrite R.
    apply update_nvidia_gpu_info_returns; assumption. }
  split.
  { intros e He. subst r. rewrite R in He.
    exact (update_nvidia_gpu_info_raises mods env _ e Hnv He). }
  destruct H as (H1 & H2 & H3 & H4 & H5 & H6 & H7).
  repeat (split; [assumption | ]).
  subst r. rewrite F. apply update_nvidia_gpu_info_local.
  rewrite (proj2 (update_intel_gpu_info_run mods env _)).
  rewrite (proj2 (update_ram_info_run env _ m Hm)).
  rewrite (proj2 (update_cpu_info_run env s c Hc)).
  destruct (INTEL_GPU_AVAILABLE mods);
    destruct (cpu_freq_out env) as [[current | ] | e]; reflexivity.
Qed.

Lemma gpu_failure_env_fails_with_error :
  nvidia_fails_with_error gpu_failure_env.
Proof. unfold nvidia_fails_with_error; cbn. repeat split. Qed.

Lemma gpu_failure_is_isolated_witness :
  nvidia_fails_with_error gpu_failure_env /\
  answers (print_nvidia_out gpu_failure_env) /\
  result (update_all nvidia_modules gpu_failure_env
            snapshot_after_nvidia_cycle) = Returns tt /\
  cpu_usage (final (update_all nvidia_modules gpu_failure_env
                      snapshot_after_nvidia_cycle)) = 40.
Proof.
  pose proof gpu_failure_env_fails_with_error as H.
  split; [exact H | ]. split; [exact Logic.I | ].
  destruct (gpu_failure_is_isolated nvidia_modules gpu_failure_env
              snapshot_after_nvidia_cycle 40
              (mkSvmem (32 * GiB) (12 * GiB) 41) eq_refl eq_refl H)
    as (Hr & _ & Hcpu & _).
  split; [exact (Hr Logic.I) | exact Hcpu].
Defined.

(** C3 as stated fails where the failure cannot be reported.  The
    handler of the NVIDIA step prints the error; on a standard output
    that cannot encode the message that [print] raises
    [UnicodeEncodeError] inside the handler, and the cycle in which
    [nvmlInit] failed does not complete: [update_all] raises, the CPU and
    memory attributes being already renewed. *)
Lemma unprintable_gpu_failure_leaves_cycle :
  let r := update_all nvidia_modules gpu_failure_unprintable_env
             snapshot_after_nvidia_cycle in
  cpu_percent_out gpu_failure_unprintable_env = Returns 40 /\
  virtual_memory_out gpu_failure_unprintable_env
    = Returns (mkSvmem (32 * GiB) (12 * GiB) 41) /\
  nvmlInit_out gpu_failure_unprintable_env = Raises NVMLError /\
  nvidia_fails_with_error gpu_failure_unprintable_env /\
  result r = Raises UnicodeEncodeError /\
  result r <> Returns tt /\
  cpu_usage (final r) = 40 /\
  reports (get_data (final r)) "ram_used" 12.
Proof.
  cbv zeta.
  split; [reflexivity | ]. split; [reflexivity | ]. split; [reflexivity | ].
  split; [unfold nvidia_fails_with_error; cbn; repeat split | ].
  assert (R : result (update_all nvidia_modules gpu_failure_unprintable_env
                        snapshot_after_nvidia_cycle)
              = Raises UnicodeEncodeError) by (vm_compute; reflexivity).
  split; [exact R | ]. split; [rewrite R; discriminate | ].
  split; [vm_compute; reflexivity | ].
  eexists; split; [vm_compute; reflexivity | reflexivity].
Qed.

(** ** Memory figures (C8, C7) *)

(** C8. In every cycle that reaches the memory step and whose memory
    source answers, [ram_total] and [ram_used] of the snapshot the cycle
    leaves are the reported byte counts divided by [1024**3], whatever the
    later steps do. *)
Theorem ram_figures_are_bytes_over_GiB (mods : modules) (env : cycle_env)
    (s : SystemInfo) (c : Q) (m : svmem) :
  cpu_percent_out env = Returns c ->
  virtual_memory_out env = Returns m ->
  ram_total (final (update_all mods env s))
    = inject_Z (total m) / inject_Z (1024 ^ 3) /\
  ram_used (final (update_all mods env s))
    = inject_Z (used m) / inject_Z (1024 ^ 3).
Proof.
  intros Hc Hm.
  destruct (update_all_outside_nvidia mods env s c m Hc Hm)
    as (_ & _ & Ht & Hu & _).
  split; [exact Ht | exact Hu].
Qed.

Lemma ram_figures_are_bytes_over_GiB_witness :
  ram_total (final (update_all laptop_modules laptop_cycle_env
                      SystemInfo_default))
    = inject_Z (16 * GiB) / inject_Z (1024 ^ 3) /\
  ram_used (final (update_all laptop_modules laptop_cycle_env
                     SystemInfo_default))
    = inject_Z (8 * GiB) / inject_Z (1024 ^ 3).
Proof.
  exact (ram_figures_are_bytes_over_GiB laptop_modules laptop_cycle_env
           SystemInfo_default (25 # 2)
           (mkSvmem (16 * GiB) (8 * GiB) (125 # 2)) eq_refl eq_refl).
Defined.

(** C7, as the code has it.  When the memory source reports 16 GiB total
    and 8 GiB used, [/data] carries [ram_used] = 8 and [ram_total] = 16,
    and its [ram_percent] is the percentage the source reported, copied
    as it is: the code never derives it from used and total. *)
Theorem ram_scenario_16_8 (mods : modules) (env : cycle_env)
    (s : SystemInfo) (c p : Q) :
  cpu_percent_out env = Returns c ->
  virtual_memory_out env = Returns (mkSvmem (16 * GiB) (8 * GiB) p) ->
  let d := get_data (final (update_all mods env s)) in
  (exists u, lookup "ram_used" d = Some u /\ u == 8) /\
  (exists t, lookup "ram_total" d = Some t /\ t == 16) /\
  lookup "ram_percent" d = Some p.
Proof.
  intros Hc Hm d. subst d.
  destruct (update_all_outside_nvidia mods env s c _ Hc Hm)
    as (_ & _ & Ht & Hu & Hp & _).
  unfold get_data, lookup; cbn [String.eqb Ascii.eqb Bool.eqb].
  rewrite Ht, Hu, Hp.
  split; [ | split ].
  - eexists; split; [reflexivity | reflexivity].
  - eexists; split; [reflexivity | reflexivity].
  - reflexivity.
Qed.

Lemma ram_scenario_16_8_witness :
  lookup "ram_percent"
    (get_data (final (update_all laptop_modules laptop_cycle_env
                        SystemInfo_default)))
  = Some (125 # 2).
Proof.
  exact (proj2 (proj2
    (ram_scenario_16_8 laptop_modules laptop_cycle_env SystemInfo_default
       (25 # 2) (125 # 2) eq_refl eq_refl))).
Defined.

(** C7 as stated fails: with 16 GiB total and 8 GiB used the source may
    report 62.5 percent (psutil counts what is not available, not what is
    used), and [/data] then carries 62.5, not about 50. *)
Lemma ram_percent_is_not_used_over_total :
  virtual_memory_out laptop_cycle_env
    = Returns (mkSvmem (16 * GiB) (8 * GiB) (125 # 2)) /\
  result (update_all laptop_modules laptop_cycle_env SystemInfo_default)
    = Returns tt /\
  exists p,
    lookup "ram_percent"
      (get_data (final (update_all laptop_modules laptop_cycle_env
                          SystemInfo_default))) = Some p /\
    ~ (45 <= p /\ p <= 55).
Proof.
  split; [reflexivity | split; [reflexivity | ]].
  exists (125 # 2). split; [reflexivity | ].
  intros [_ H]. revert H. q_compare.
Qed.

(** ** Failures inside the NVIDIA step (C10, C4) *)

(** C10. When the library is there and the calls up to the memory query
    answer, a temperature query that raises (anything at all) sets
    [gpu_nvidia_temp] to 0 while usage, used and total memory hold the
    values read in this cycle, whatever [nvmlShutdown] does afterwards. *)
Theorem temperature_failure_zeroes_temp_only (mods : modules)
    (env : cycle_env) (s : SystemInfo) (h : handle) (u : Z)
    (mem : nvml_memory) (e : pyexc) :
  NVIDIA_AVAILABLE mods = true ->
  nvmlInit_out env = Returns tt ->
  handle_out env = Returns h ->
  utilization_out env = Returns u ->
  memory_info_out env = Returns mem ->
  temperature_out env = Raises e ->
  let s' := final (update_nvidia_gpu_info mods env s) in
  gpu_nvidia_temp s' = 0 /\
  gpu_nvidia_usage s' = inject_Z u /\
  gpu_nvidia_mem_used s' = inject_Z (nv_used mem) / inject_Z (1024 ^ 3) /\
  gpu_nvidia_mem_total s' = inject_Z (nv_total mem) / inject_Z (1024 ^ 3).
Proof.
  intros Hav Hi Hh Hu Hm Ht s'. subst s'.
  unfold update_nvidia_gpu_info.
  rewrite Hav, Hi, Hh, Hu, Hm, Ht.
  destruct (nvmlShutdown_out env) as [[] | []]; repeat split.
Qed.

Lemma temperature_failure_zeroes_temp_only_witness :
  gpu_nvidia_temp
    (final (update_nvidia_gpu_info nvidia_modules temperature_failure_env
              snapshot_after_nvidia_cycle)) = 0 /\
  gpu_nvidia_usage
    (final (update_nvidia_gpu_info nvidia_modules temperature_failure_env
              snapshot_after_nvidia_cycle)) = inject_Z 80.
Proof.
  destruct (temperature_failure_zeroes_temp_only nvidia_modules
              temperature_failure_env snapshot_after_nvidia_cycle
              1%Z 80%Z (mkNvmlMemory (4 * GiB) (8 * GiB)) NVMLError
              eq_refl eq_refl eq_refl eq_refl eq_refl eq_refl)
    as (Ht & Hu & _).
  split; [exact Ht | exact Hu].
Defined.

(** A failure caught by the outer handler of the NVIDIA step is only
    printed: the four NVIDIA figures stay what they were before the
    step, up to the assignments made before the failing call. *)
Lemma nvmlInit_failure_keeps_figures (mods : modules) (env : cycle_env)
    (s : SystemInfo) (e : pyexc) :
  nvmlInit_out env = Raises e ->
  nvidia_figures (final (update_nvidia_gpu_info mods env s))
    = nvidia_figures s.
Proof.
  intros Hi. unfold update_nvidia_gpu_info.
  destruct (NVIDIA_AVAILABLE mods); [ | reflexivity].
  rewrite Hi. destruct e; reflexivity.
Qed.

(** C4 fails on the NVIDIA step.  After a cycle that read usage 57 and
    70 degrees, a cycle in which [nvmlInit] raises [NVMLError] completes,
    prints the error, and [/data] still carries usage 57, 2 of 8 GiB and
    70 degrees, the figures of the cycle before.  The Intel step of the
    same cycle, whose clock file cannot be read any more, does reset its
    figure: it goes from 0.35 to 0. *)
Theorem nvidia_failure_keeps_stale_figures :
  let before := snapshot_after_nvidia_cycle in
  let r := update_all nvidia_modules gpu_failure_env before in
  nvmlInit_out gpu_failure_env = Raises NVMLError /\
  result r = Returns tt /\
  In (EvPrint Msg_nvidia_update_error NVMLError) (trace r) /\
  nvidia_figures (final r) = nvidia_figures before /\
  reports (get_data (final r)) "gpu_nvidia_usage" 57 /\
  reports (get_data (final r)) "gpu_nvidia_mem_used" 2 /\
  reports (get_data (final r)) "gpu_nvidia_mem_total" 8 /\
  reports (get_data (final r)) "gpu_nvidia_temp" 70 /\
  reports (get_data before) "gpu_intel_usage" (35 # 100) /\
  reports (get_data (final r)) "gpu_intel_usage" 0.
Proof.
  cbv zeta. split; [reflexivity | ].
  split; [vm_compute; reflexivity | ].
  split; [vm_compute; tauto | ].
  split; [vm_compute; reflexivity | ].
  unfold reports.
  repeat (split;
          [eexists; split; [vm_compute; reflexivity | reflexivity] | ]).
  eexists; split; [vm_compute; reflexivity | reflexivity].
Qed.

(** ** The vendor library is looked for once (C5) *)









(** ** The [/data] object (C6) *)

Lemma Forall_any_event (t : list event) : Forall any_event t.
Proof. induction t; constructor; [exact Logic.I | assumption]. Qed.

(** A property of the final state alone. *)
Lemma keeps_final {A} (I : SystemInfo -> Prop) (m : M A) :
  (forall s, I s -> I (final (m s))) -> keeps I any_event m.
Proof. intros H s Hs. split; [exact (H s Hs) | apply Forall_any_event]. Qed.

(** In a cycle that finds no device, the NVIDIA step assigns nothing. *)
Lemma no_device_keeps_figures (mods : modules) (env : cycle_env)
    (s : SystemInfo) :
  NVIDIA_AVAILABLE mods = false \/ no_nvidia_device env ->
  nvidia_figures (final (update_nvidia_gpu_info mods env s))
    = nvidia_figures s.
Proof.
  intros [Hav | [[e He] | [e He]]]; [ | | unfold update_nvidia_gpu_info].
  - unfold update_nvidia_gpu_info. rewrite Hav. reflexivity.
  - exact (nvmlInit_failure_keeps_figures mods env s e He).
  - destruct (NVIDIA_AVAILABLE mods); [ | reflexivity].
    rewrite He. destruct (nvmlInit_out env) as [[] | []];
      destruct e; reflexivity.
Qed.

(** The leaves of code that assigns neither NVIDIA figures nor the Intel
    usage. *)
Ltac untouched_leaves :=
  first [ apply keeps_extern; exact Logic.I
        | apply keeps_print; exact Logic.I
        | apply keeps_assign; intros ? H; split; [exact H | exact Logic.I] ].

Lemma init_keeps_zero (mods : modules) (env : init_env) :
  keeps nvidia_zero any_event
    (bind (_init_cpu_info env) (fun _ => _init_gpu_info mods env)) /\
  keeps intel_zero any_event
    (bind (_init_cpu_info env) (fun _ => _init_gpu_info mods env)).
Proof.
  unfold _init_cpu_info, _init_gpu_info.
  split; keeps_structure; untouched_leaves.
Qed.

Lemma update_all_keeps_nvidia_zero (mods : modules) (env : cycle_env) :
  NVIDIA_AVAILABLE mods = false \/ no_nvidia_device env ->
  keeps nvidia_zero any_event (update_all mods env).
Proof.
  intros Habs. unfold update_all.
  apply keeps_bind; [ | intros _; apply keeps_bind;
                        [ | intros _; apply keeps_bind; [ | intros _] ] ].
  - unfold update_cpu_info. keeps_structure; untouched_leaves.
  - unfold update_ram_info. keeps_structure; untouched_leaves.
  - unfold update_intel_gpu_info. keeps_structure; untouched_leaves.
  - apply keeps_final. intros s Hs. unfold nvidia_zero in *.
    rewrite (no_device_keeps_figures mods env s Habs). exact Hs.
Qed.

Lemma update_all_keeps_intel_zero (mods : modules) (env : cycle_env) :
  (exists e, gt_cur_freq_out env = Raises e) ->
  keeps intel_zero any_event (update_all mods env).
Proof.
  intros [e He]. unfold update_all.
  apply keeps_bind; [ | intros _; apply keeps_bind;
                        [ | intros _; apply keeps_bind; [ | intros _] ] ].
  - unfold update_cpu_info. keeps_structure; untouched_leaves.
  - unfold update_ram_info. keeps_structure; untouched_leaves.
  - unfold update_intel_gpu_info. rewrite He.
    destruct (INTEL_GPU_AVAILABLE mods).
    + apply keeps_try_except; [ | intros ?; untouched_leaves].
      apply keeps_bind; [ | intros _; untouched_leaves].
      apply keeps_assign; intros ? _; split; [reflexivity | exact Logic.I].
    + apply keeps_try_except.
      * apply keeps_bind_extern; [exact Logic.I | discriminate].
      * intros _. apply keeps_assign; intros ? _;
          split; [reflexivity | exact Logic.I].
  - unfold update_nvidia_gpu_info. keeps_structure; untouched_leaves.
Qed.

Lemma update_loop_keeps_nvidia_zero (mods : modules) (envs : list cycle_env) :
  nvidia_absent mods envs ->
  keeps nvidia_zero any_event (update_loop mods envs).
Proof.
  intros Habs. induction envs as [ | env rest IH]; cbn [update_loop].
  - apply keeps_ret.
  - apply keeps_bind; [ | intros _; apply IH].
    + apply update_all_keeps_nvidia_zero.
      destruct Habs as [Hav | Hall]; [left; exact Hav | right].
      exact (Forall_inv Hall).
    + destruct Habs as [Hav | Hall]; [left; exact Hav | right].
      exact (Forall_inv_tail Hall).
Qed.

Lemma update_loop_keeps_intel_zero (mods : modules) (envs : list cycle_env) :
  intel_absent envs ->
  keeps intel_zero any_event (update_loop mods envs).
Proof.
  induction 1 as [ | env rest Habs _ IH]; cbn [update_loop].
  - apply keeps_ret.
  - apply keeps_bind; [ | intros _; exact IH].
    apply update_all_keeps_intel_zero. exact Habs.
Qed.

(** The [/data] object of a machine that never had the GPU.  The object
    that [get_data] hands to [jsonify] has exactly the ten keys
    [cpu_usage], [cpu_freq], [ram_used], [ram_total], [ram_percent],
    [gpu_intel_usage], [gpu_nvidia_usage], [gpu_nvidia_mem_used],
    [gpu_nvidia_mem_total], [gpu_nvidia_temp], each once and each with a
    number.  After any number of cycles of a freshly constructed monitor,
    the four NVIDIA entries are 0 when the module is missing or no cycle
    since the construction has found a device, and [gpu_intel_usage] is
    0 when no cycle since the construction could read the clock file. *)
Theorem data_has_ten_numbers_and_zero_for_absent_gpu (mods : modules)
    (ienv : init_env) (envs : list cycle_env) :
  let s := final (update_loop mods envs
                    (final (SystemMonitor_init mods ienv))) in
  (forall s0 : SystemInfo, map fst (get_data s0) = data_keys) /\
  NoDup data_keys /\
  (nvidia_absent mods envs ->
   lookup "gpu_nvidia_usage" (get_data s) = Some 0 /\
   lookup "gpu_nvidia_mem_used" (get_data s) = Some 0 /\
   lookup "gpu_nvidia_mem_total" (get_data s) = Some 0 /\
   lookup "gpu_nvidia_temp" (get_data s) = Some 0) /\
  (intel_absent envs ->
   lookup "gpu_intel_usage" (get_data s) = Some 0).
Proof.
  intros s. split; [reflexivity | ]. split.
  { unfold data_keys.
    repeat (constructor;
            [ cbn; intros H;
              repeat (destruct H as [H | H]; [discriminate H | ]); exact H
            | ]).
    constructor. }
  split.
  - intros Habs.
    assert (Hz : nvidia_zero s).
    { apply (update_loop_keeps_nvidia_zero mods envs Habs).
      apply (proj1 (init_keeps_zero mods ienv)). reflexivity. }
    unfold nvidia_zero, nvidia_figures in Hz.
    injection Hz as H1 H2 H3 H4.
    unfold get_data, lookup; cbn [String.eqb Ascii.eqb Bool.eqb].
    rewrite H1, H2, H3, H4. repeat split.
  - intros Habs.
    assert (Hz : intel_zero s).
    { apply (update_loop_keeps_intel_zero mods envs Habs).
      apply (proj2 (init_keeps_zero mods ienv)). reflexivity. }
    unfold intel_zero in Hz.
    unfold get_data, lookup; cbn [String.eqb Ascii.eqb Bool.eqb].
    rewrite Hz. reflexivity.
Qed.

Lemma data_has_ten_numbers_and_zero_for_absent_gpu_witness :
  nvidia_absent no_gpu_modules [no_gpu_cycle_env; no_gpu_cycle_env] /\
  intel_absent [no_gpu_cycle_env; no_gpu_cycle_env] /\
  lookup "gpu_nvidia_usage"
    (get_data (final (update_loop no_gpu_modules
                        [no_gpu_cycle_env; no_gpu_cycle_env]
                        (final (SystemMonitor_init no_gpu_modules
                                  no_gpu_init_env))))) = Some 0 /\
  lookup "gpu_intel_usage"
    (get_data (final (update_loop no_gpu_modules
                        [no_gpu_cycle_env; no_gpu_cycle_env]
                        (final (SystemMonitor_init no_gpu_modules
                                  no_gpu_init_env))))) = Some 0.
Proof.
  assert (Hn : nvidia_absent no_gpu_modules
                 [no_gpu_cycle_env; no_gpu_cycle_env]).
  { left. reflexivity. }
  assert (Hi : intel_absent [no_gpu_cycle_env; no_gpu_cycle_env]).
  { repeat constructor; exists OSError; reflexivity. }
  destruct (data_has_ten_numbers_and_zero_for_absent_gpu no_gpu_modules
              no_gpu_init_env [no_gpu_cycle_env; no_gpu_cycle_env])
    as (_ & _ & Hnv & Hin).
  split; [exact Hn | ]. split; [exact Hi | ].
  split; [exact (proj1 (Hnv Hn)) | exact (Hin Hi)].
Defined.

(** C6 fails for an NVIDIA GPU that is absent now and was there before.
    Every [/data] object has the ten keys, but the zero for an absent
    GPU is only the initial value of the attributes.  A monitor built on
    a machine with an NVIDIA GPU runs one cycle that reads usage 57, 2
    of 8 GiB and 70 degrees; in the next cycle the library finds no
    device ([nvmlInit] raises [NVMLError]).  That cycle completes, and
    the [/data] object served after it still carries 57, 2, 8 and 70 in
    the four NVIDIA fields.  The Intel field of the same object, whose
    clock file could not be read either, is 0. *)
Theorem data_keeps_figures_of_absent_gpu :
  let built := final (SystemMonitor_init nvidia_modules nvidia_init_env) in
  let r := update_loop nvidia_modules [nvidia_cycle_env; gpu_failure_env]
             built in
  let d := get_data (final r) in
  no_nvidia_device gpu_failure_env /\
  result r = Returns tt /\
  map fst d = data_keys /\
  reports d "gpu_nvidia_usage" 57 /\
  reports d "gpu_nvidia_mem_used" 2 /\
  reports d "gpu_nvidia_mem_total" 8 /\
  reports d "gpu_nvidia_temp" 70 /\
  reports d "gpu_intel_usage" 0.
Proof.
  cbv zeta.
  split; [left; exists NVMLError; reflexivity | ].
  split; [vm_compute; reflexivity | ].
  split; [reflexivity | ].
  unfold reports.
  repeat (split;
          [eexists; split; [vm_compute; reflexivity | reflexivity] | ]).
  eexists; split; [vm_compute; reflexivity | reflexivity].
Qed.

(** ** The cycle works in place (C2) *)

Lemma observable_app (s : SystemInfo) (t1 t2 : list event) :
  observable s (t1 ++ t2) = observable s t1 ++ tl (observable s t2).
Proof. unfold observable. cbn. rewrite flat_map_app. reflexivity. Qed.

Lemma in_place_bind {A B} (F1 F2 : field -> bool) (m : M A) (k : A -> M B) :
  in_place F1 m ->
  (forall a, in_place F2 (k a)) ->
  (forall f, F1 f && F2 f = false) ->
  in_place (fun f => F1 f || F2 f) (bind m k).
Proof.
  intros H1 H2 Hdis s. destruct (H1 s) as (Hc1 & Hf1 & Ho1).
  unfold bind. destruct (result (m s)) as [a | e]; cbn [result final trace].
  - destruct (H2 a (final (m s))) as (Hc2 & Hf2 & Ho2).
    split; [ | split ].
    + unfold current in *. rewrite fold_left_app, Hc1. exact Hc2.
    + intros f Hf. apply orb_false_iff in Hf. destruct Hf as [Hf Hf'].
      rewrite (Hf2 f Hf'). exact (Hf1 f Hf).
    + rewrite observable_app. apply Forall_app. split.
      * apply (Forall_impl _ (P := fun x => forall f,
                 attr f x = attr f s \/
                 (F1 f = true /\ attr f x = attr f (final (m s)))));
          [ | exact Ho1].
        intros x Hx f. destruct (Hx f) as [Hold | [Hin Hnew]];
          [left; exact Hold | right].
        split; [rewrite Hin; reflexivity | ].
        rewrite Hnew. symmetry. apply Hf2.
        specialize (Hdis f). rewrite Hin in Hdis. exact Hdis.
      * apply Forall_inv_tail in Ho2. cbn [tl observable].
        apply (Forall_impl _ (P := fun x => forall f,
                 attr f x = attr f (final (m s)) \/
                 (F2 f = true /\
                  attr f x = attr f (final (k a (final (m s)))))));
          [ | exact Ho2].
        intros x Hx f. destruct (Hx f) as [Hmid | [Hin Hnew]].
        -- destruct (F1 f) eqn:E1.
           ++ right. split; [reflexivity | ].
              rewrite Hmid. symmetry. apply Hf2.
              specialize (Hdis f). rewrite E1 in Hdis. exact Hdis.
           ++ left. rewrite Hmid. apply Hf1. exact E1.
        -- right. split; [rewrite Hin; apply orb_true_r | exact Hnew].
  - split; [exact Hc1 | split].
    + intros f Hf. apply orb_false_iff in Hf. apply Hf1. tauto.
    + apply (Forall_impl _ (P := fun x => forall f,
               attr f x = attr f s \/
               (F1 f = true /\ attr f x = attr f (final (m s)))));
        [ | exact Ho1].
      intros x Hx f. destruct (Hx f) as [Hold | [Hin Hnew]];
        [left; exact Hold | right].
      split; [rewrite Hin; reflexivity | exact Hnew].
Qed.

Lemma in_place_weaken {A} (F G : field -> bool) (m : M A) :
  (forall f, F f = true -> G f = true) -> in_place F m -> in_place G m.
Proof.
  intros HFG H s. destruct (H s) as (Hc & Hf & Ho).
  split; [exact Hc | split].
  - intros f Hg. apply Hf. destruct (F f) eqn:E; [ | reflexivity].
    rewrite (HFG f E) in Hg. discriminate Hg.
  - apply (Forall_impl _ (P := fun x => forall f,
             attr f x = attr f s \/
             (F f = true /\ attr f x = attr f (final (m s)))));
      [ | exact Ho].
    intros x Hx f. destruct (Hx f) as [Hold | [Hin Hnew]];
      [left; exact Hold | right; split; [apply HFG; exact Hin | exact Hnew]].
Qed.

(** One path of a step, all its calls settled: the states are compared
    attribute by attribute. *)
Ltac in_place_path :=
  cbv - [Qdiv inject_Z py_min GiB float_of_int];
  split;
  [ reflexivity
  | split;
    [ intros [] Hf; solve [reflexivity | discriminate Hf]
    | repeat (constructor;
              [ intros [];
                solve [left; reflexivity | right; split; reflexivity]
              | ]);
      constructor ] ].

Lemma update_cpu_info_in_place (env : cycle_env) :
  in_place cpu_fields (update_cpu_info env).
Proof.
  intros s. unfold update_cpu_info.
  destruct (cpu_percent_out env) as [usage | e]; [ | in_place_path].
  destruct (cpu_freq_out env) as [[current | ] | e]; in_place_path.
Qed.

Lemma update_ram_info_in_place (env : cycle_env) :
  in_place ram_fields (update_ram_info env).
Proof.
  intros s. unfold update_ram_info.
  destruct (virtual_memory_out env) as [mem | e]; in_place_path.
Qed.

Lemma update_intel_gpu_info_in_place (mods : modules) (env : cycle_env) :
  in_place intel_fields (update_intel_gpu_info mods env).
Proof.
  intros s. unfold update_intel_gpu_info.
  destruct (INTEL_GPU_AVAILABLE mods); [in_place_path | ].
  destruct (gt_cur_freq_out env) as [freq | e]; [ | in_place_path].
  unfold_cycle.
  destruct (float_of_int freq) as [clock | e]; in_place_path.
Qed.

Lemma update_nvidia_gpu_info_in_place (mods : modules) (env : cycle_env) :
  in_place nvidia_fields (update_nvidia_gpu_info mods env).
Proof.
  intros s. unfold update_nvidia_gpu_info.
  destruct (NVIDIA_AVAILABLE mods); [ | in_place_path].
  cbv beta iota delta [negb].
  nvidia_path env ltac:(in_place_path).
Qed.

Lemma update_all_in_place (mods : modules) (env : cycle_env) :
  in_place (fun f => negb (is_static f)) (update_all mods env).
Proof.
  unfold update_all.
  apply (in_place_weaken
           (fun f => cpu_fields f ||
              (ram_fields f || (intel_fields f || nvidia_fields f)))).
  { intros []; cbn; intros H; solve [reflexivity | discriminate H]. }
  apply in_place_bind;
    [ apply update_cpu_info_in_place | intros _ | intros []; reflexivity ].
  apply in_place_bind;
    [ apply update_ram_info_in_place | intros _ | intros []; reflexivity ].
  apply in_place_bind;
    [ apply update_intel_gpu_info_in_place | intros _
    | intros []; reflexivity ].
  apply update_nvidia_gpu_info_in_place.
Qed.

(** C2, as the code has it.  [update_all] builds no new snapshot: it
    assigns to the attributes of the one shared object, one at a time and
    without a lock.  The object ends in the state of the last assignment;
    in every state a concurrent reader can see, each attribute holds
    either its value from before the cycle or the value the cycle leaves,
    so a read during a cycle may mix the two; and once [cpu_percent] has
    answered, the first such state has the new [cpu_usage] next to
    fifteen attributes of the previous cycle. *)
Theorem update_all_mutates_in_place (mods : modules) (env : cycle_env)
    (s : SystemInfo) :
  let r := update_all mods env s in
  current s (trace r) = final r /\
  Forall (fun x => forall f,
            attr f x = attr f s \/ attr f x = attr f (final r))
    (observable s (trace r)) /\
  (forall c, cpu_percent_out env = Returns c ->
     nth_error (observable s (trace r)) 1 = Some (set_cpu_usage c s) /\
     nth_error (responses_during s (trace r)) 1
       = Some (get_data (set_cpu_usage c s))).
Proof.
  intros r. destruct (update_all_in_place mods env s) as (Hc & _ & Ho).
  fold r in Hc, Ho.
  split; [exact Hc | split].
  - apply (Forall_impl _ (P := fun x => forall f,
             attr f x = attr f s \/
             (negb (is_static f) = true /\ attr f x = attr f (final r))));
      [ | exact Ho].
    intros x Hx f. destruct (Hx f) as [Hold | [_ Hnew]]; tauto.
  - intros c Hcpu.
    assert (E : exists rest, trace r =
              EvCall psutil_cpu_percent
                :: EvWrite F_cpu_usage (set_cpu_usage c s) :: rest).
    { subst r. unfold update_all, update_cpu_info.
      cbv beta iota zeta delta [bind extern assign result final trace].
      rewrite Hcpu. cbv beta iota zeta delta [result final trace app].
      match goal with
      | |- context [match ?x with Returns _ => _ | Raises _ => _ end] =>
          destruct x
      end; eexists; reflexivity. }
    destruct E as [rest E]. unfold responses_during. rewrite E.
    split; reflexivity.
Qed.

Lemma update_all_mutates_in_place_witness :
  nth_error
    (observable snapshot_after_nvidia_cycle
       (trace (update_all nvidia_modules temperature_failure_env
                 snapshot_after_nvidia_cycle))) 1
  = Some (set_cpu_usage 35 snapshot_after_nvidia_cycle).
Proof.
  exact (proj1 (proj2 (proj2
    (update_all_mutates_in_place nvidia_modules temperature_failure_env
       snapshot_after_nvidia_cycle)) 35 eq_refl)).
Defined.

(** C2 as stated fails.  After a cycle that left [cpu_usage] 40 and
    [ram_used] 12, the next cycle reads 35 and 10.  Right after its first
    assignment the shared object, and so a [/data] response served at
    that moment, carries [cpu_usage] 35 of the new cycle together with
    [ram_used] 12 of the previous one. *)
Lemma read_during_update_mixes_two_cycles :
  let before := snapshot_after_nvidia_cycle in
  let r := update_all nvidia_modules temperature_failure_env before in
  exists d,
    In d (responses_during before (trace r)) /\
    reports d "cpu_usage" 35 /\ reports d "ram_used" 12 /\
    reports (get_data before) "cpu_usage" 40 /\
    reports (get_data before) "ram_used" 12 /\
    reports (get_data (final r)) "cpu_usage" 35 /\
    reports (get_data (final r)) "ram_used" 10.
Proof.
  cbv zeta. exists (get_data (set_cpu_usage 35 snapshot_after_nvidia_cycle)).
  split.
  - vm_compute. right. left. reflexivity.
  - unfold reports.
    repeat split; eexists; (split; [vm_compute; reflexivity | reflexivity]).
Qed.

(** * Further properties of the code *)

(** ** The text handling of the constructor *)

Lemma split_on_not_nil (sep : ascii) (s : string) : split_on sep s <> [].
Proof.
  destruct s as [ | c rest]; cbn; [discriminate | ].
  destruct (Ascii.eqb c sep); [discriminate | ].
  destruct (split_on sep rest); discriminate.
Qed.

(** Splitting at a separator and joining with it gives the text back. *)
Lemma join_split_on (sep : ascii) (s : string) :
  join sep (split_on sep s) = s.
Proof.
  induction s as [ | c rest IH]; [reflexivity | ].
  cbn [split_on]. pose proof (split_on_not_nil sep rest) as Hne.
  destruct (Ascii.eqb c sep) eqn:E.
  - apply Ascii.eqb_eq in E. subst c.
    destruct (split_on sep rest) as [ | x xs]; [contradiction | ].
    cbn [join] in *. cbn. rewrite IH. reflexivity.
  - destruct (split_on sep rest) as [ | x xs]; [contradiction | ].
    destruct xs as [ | y ys]; cbn [join] in *.
    + rewrite IH. reflexivity.
    + cbn. rewrite IH. reflexivity.
Qed.

Lemma split_on_pieces (sep : ascii) (s : string) :
  Forall (fun p => occurs sep p = false) (split_on sep s).
Proof.
  induction s as [ | c rest IH]; cbn [split_on].
  - repeat constructor.
  - destruct (Ascii.eqb c sep) eqn:E.
    + constructor; [reflexivity | exact IH].
    + destruct (split_on sep rest) as [ | x xs].
      * repeat constructor. cbn. rewrite E. reflexivity.
      * inversion IH as [ | ? ? Hx Hxs]; subst.
        constructor; [cbn; rewrite E; exact Hx | exact Hxs].
Qed.

Lemma occurs_lstrip (c : ascii) (s : string) :
  occurs c s = false -> occurs c (lstrip s) = false.
Proof.
  induction s as [ | d rest IH]; [reflexivity | ].
  cbn [lstrip]. intros H. destruct (is_space d); [ | exact H].
  apply IH. cbn in H. apply orb_false_iff in H. tauto.
Qed.

Lemma occurs_rstrip (c : ascii) (s : string) :
  occurs c s = false -> occurs c (rstrip s) = false.
Proof.
  induction s as [ | d rest IH]; [reflexivity | ].
  cbn [rstrip occurs]. intros H. apply orb_false_iff in H.
  destruct H as [Hd Hrest]. specialize (IH Hrest).
  destruct (rstrip rest) as [ | e r].
  - destruct (is_space d); cbn; [reflexivity | rewrite Hd; reflexivity].
  - cbn [occurs] in *. rewrite Hd. exact IH.
Qed.

Lemma starts_with_space_lstrip (s : string) :
  starts_with_space (lstrip s) = false.
Proof.
  induction s as [ | d rest IH]; [reflexivity | ].
  cbn [lstrip]. destruct (is_space d) eqn:E; [exact IH | cbn; exact E].
Qed.

Lemma starts_with_space_rstrip (s : string) :
  starts_with_space s = false -> starts_with_space (rstrip s) = false.
Proof.
  destruct s as [ | d rest]; [reflexivity | ].
  cbn [starts_with_space rstrip]. intros H.
  destruct (rstrip rest); [rewrite H | ]; cbn; exact H.
Qed.

Lemma ends_with_space_rstrip (s : string) :
  ends_with_space (rstrip s) = false.
Proof.
  induction s as [ | d rest IH]; [reflexivity | ].
  cbn [rstrip]. destruct (rstrip rest) as [ | e r].
  - destruct (is_space d) eqn:E; [reflexivity | cbn; exact E].
  - exact IH.
Qed.

Lemma clean_name_strip_piece (line part : string) (n : nat) :
  nth_error (split_on colon line) n = Some part -> clean_name (strip part).
Proof.
  intros H. apply nth_error_In in H.
  pose proof (split_on_pieces colon line) as Hp.
  rewrite Forall_forall in Hp. specialize (Hp part H).
  unfold clean_name, strip. split; [ | split].
  - apply occurs_rstrip, occurs_lstrip. exact Hp.
  - apply starts_with_space_rstrip, starts_with_space_lstrip.
  - apply ends_with_space_rstrip.
Qed.

Lemma init_keeps_names_clean (mods : modules) (env : init_env) :
  keeps names_clean any_event
    (bind (_init_cpu_info env) (fun _ => _init_gpu_info mods env)).
Proof.
  unfold _init_cpu_info, _init_gpu_info.
  apply keeps_bind; [ | intros _; apply keeps_bind; [ | intros _] ].
  - apply keeps_try_except; [ | intros e; untouched_leaves].
    apply keeps_bind_extern; [exact Logic.I | intros lines _].
    apply keeps_bind.
    + destruct (find (contains "model name") lines) as [line | ];
        [ | apply keeps_ret].
      destruct (nth_error (split_on colon line) 1) as [part | ] eqn:E;
        [ | apply keeps_raise].
      apply keeps_assign. intros s [_ Hs]. split; [ | exact Logic.I].
      split; [exact (clean_name_strip_piece line part 1%nat E) | exact Hs].
    + intros _. keeps_structure; untouched_leaves.
  - apply keeps_try_except; [ | intros e; untouched_leaves].
    apply keeps_bind_extern; [exact Logic.I | intros stdout _].
    destruct (find is_intel_gpu_line (split_on newline stdout))
      as [line | ]; [ | apply keeps_ret].
    destruct (nth_error (split_on colon line) 2) as [part | ] eqn:E;
      [ | apply keeps_raise].
    apply keeps_assign. intros s [Hs _]. split; [ | exact Logic.I].
    split; [exact Hs | exact (clean_name_strip_piece line part 2%nat E)].
  - keeps_structure; untouched_leaves.
Qed.

Lemma update_loop_same_static (mods : modules) (envs : list cycle_env)
    (s : SystemInfo) :
  same_static s (final (update_loop mods envs s)).
Proof.
  assert (K : keeps (same_static s) any_event (update_loop mods envs)).
  { induction envs as [ | env rest IH]; cbn [update_loop].
    - apply keeps_ret.
    - apply keeps_bind; [ | intros _; exact IH].
      apply keeps_final. intros s1 H1.
      exact (proj1 (update_all_dynamic mods env s s1 H1)). }
  exact (proj1 (K s (same_static_refl s))).
Qed.

(** The names read from text are always clean: whatever [/proc/cpuinfo]
    and [lspci] contain, after construction and any number of cycles
    [cpu_name] and [gpu_intel_name] hold no colon and neither begin nor
    end with white space (a model name with a colon inside is cut at
    it). *)
Theorem text_names_are_clean (mods : modules) (ienv : init_env)
    (envs : list cycle_env) :
  let s := final (update_loop mods envs
                    (final (SystemMonitor_init mods ienv))) in
  clean_name (cpu_name s) /\ clean_name (gpu_intel_name s).
Proof.
  intros s.
  assert (H0 : names_clean SystemInfo_default) by (repeat split).
  pose proof (proj1 (init_keeps_names_clean mods ienv _ H0)) as Hb.
  destruct (update_loop_same_static mods envs
              (final (SystemMonitor_init mods ienv)))
    as (Hn & _ & _ & Hi & _).
  fold s in Hn, Hi. unfold names_clean in Hb.
  rewrite Hn, Hi. exact Hb.
Qed.

Lemma prefix_contains (needle hay : string) :
  String.prefix needle hay = true -> contains needle hay = true.
Proof.
  intros H. destruct hay; cbn [contains]; rewrite H; reflexivity.
Qed.

Lemma contains_tail (c : ascii) (needle hay : string) :
  contains (String c needle) hay = true -> contains needle hay = true.
Proof.
  induction hay as [ | d rest IH]; cbn [contains].
  - cbn. discriminate.
  - intros H. apply orb_true_iff in H. apply orb_true_iff. right.
    destruct H as [H | H].
    + cbn [String.prefix] in H. destruct (ascii_dec c d); [ | discriminate].
      apply prefix_contains. exact H.
    + exact (IH H).
Qed.

(** In the test that picks the Intel line of [lspci], the third
    alternative ['HD Graphics' in line] never decides: a line that holds
    ['HD Graphics'] holds ['Graphics']. *)
Theorem is_intel_gpu_line_two_tests (line : string) :
  is_intel_gpu_line line =
  contains "Intel" line && (contains "Graphics" line || contains "UHD" line).
Proof.
  unfold is_intel_gpu_line. f_equal.
  destruct (contains "HD Graphics" line) eqn:E;
    [ | rewrite orb_false_r; reflexivity].
  do 3 apply contains_tail in E. rewrite E. reflexivity.
Qed.

(** ** What leaves the constructor *)

Section EscapesOnly.

Variable P : pyexc -> Prop.

Lemma escapes_only_ret {A} (a : A) : escapes_only P (ret a).
Proof. intros s e H. discriminate H. Qed.

Lemma escapes_only_print (m : message) (e : pyexc) (o : outcome unit) :
  (forall e', o = Raises e' -> P e') -> escapes_only P (print m e o).
Proof. intros Ho s e' H. right. apply Ho. exact H. Qed.

Lemma escapes_only_bind {A B} (m : M A) (k : A -> M B) :
  escapes_only P m -> (forall a, escapes_only P (k a)) ->
  escapes_only P (bind m k).
Proof.
  intros Hm Hk s e. unfold bind.
  destruct (result (m s)) as [a | e'] eqn:E; cbn [result].
  - apply Hk.
  - intros H. injection H as ->. exact (Hm s e E).
Qed.

(** Whatever the body does, an [Exception] leaves
    [try: body except Exception: handler] only out of the handler. *)
Lemma escapes_only_try {A} (body : M A) (handler : pyexc -> M A) :
  (forall e, escapes_only P (handler e)) ->
  escapes_only P (try_except body except_Exception handler).
Proof.
  intros Hh s e. unfold try_except, except_Exception.
  destruct (result (body s)) as [a | e'] eqn:E.
  - rewrite E. discriminate.
  - destruct (is_Exception e') eqn:Ee; cbn [result].
    + apply Hh.
    + rewrite E. intros H. injection H as <-. left. exact Ee.
Qed.

End EscapesOnly.

Lemma SystemMonitor_init_escapes (mods : modules) (env : init_env)
    (e : pyexc) :
  result (SystemMonitor_init mods env) = Raises e ->
  is_Exception e = false \/ raised_by_init_print env e.
Proof.
  assert (H : escapes_only (raised_by_init_print env)
                (bind (_init_cpu_info env)
                   (fun _ => _init_gpu_info mods env))).
  { unfold _init_cpu_info, _init_gpu_info, raised_by_init_print.
    apply escapes_only_bind;
      [ apply escapes_only_try; intros e'; apply escapes_only_print;
        intros; tauto
      | intros _ ].
    apply escapes_only_bind;
      [ apply escapes_only_try; intros e'; apply escapes_only_print;
        intros; tauto
      | intros _ ].
    destruct (NVIDIA_AVAILABLE mods);
      [ apply escapes_only_try; intros e'; apply escapes_only_print;
        intros; tauto
      | apply escapes_only_ret ]. }
  exact (H SystemInfo_default e).
Qed.

(** An [Exception] leaves the constructor only out of the [print] of one
    of its handlers.  Whatever [/proc/cpuinfo], psutil, [lspci] and NVML
    do or contain, [SystemMonitor()] returns, or it is left by something
    that is no [Exception] (an interrupt), or by what the print of an
    error message raised; when the three messages can be printed, no
    [Exception] leaves it. *)
Theorem constructor_errors_escape_only_from_print (mods : modules)
    (env : init_env) :
  (forall e, result (SystemMonitor_init mods env) = Raises e ->
             is_Exception e = false \/ raised_by_init_print env e) /\
  (answers (init_print_cpu_out env) ->
   answers (init_print_intel_out env) ->
   answers (init_print_nvidia_out env) ->
   forall e, result (SystemMonitor_init mods env) = Raises e ->
             is_Exception e = false).
Proof.
  split; [apply SystemMonitor_init_escapes | ].
  intros H1 H2 H3 e He.
  destruct (SystemMonitor_init_escapes mods env e He)
    as [Hno | [Hp | [Hp | Hp]]]; [exact Hno | | | ].
  - rewrite Hp in H1. destruct H1.
  - rewrite Hp in H2. destruct H2.
  - rewrite Hp in H3. destruct H3.
Qed.

Lemma constructor_errors_escape_only_from_print_witness :
  result (SystemMonitor_init laptop_modules unprintable_init_env)
    = Raises UnicodeEncodeError /\
  (is_Exception UnicodeEncodeError = false \/
   raised_by_init_print unprintable_init_env UnicodeEncodeError).
Proof.
  assert (H : result (SystemMonitor_init laptop_modules unprintable_init_env)
              = Raises UnicodeEncodeError) by (vm_compute; reflexivity).
  split; [exact H | ].
  exact (proj1 (constructor_errors_escape_only_from_print laptop_modules
                  unprintable_init_env) UnicodeEncodeError H).
Defined.

Lemma split_on_without_separator (sep : ascii) (s : string) :
  occurs sep s = false -> split_on sep s = [s].
Proof.
  induction s as [ | c rest IH]; [reflexivity | ].
  cbn [occurs split_on]. intros H. apply orb_false_iff in H.
  destruct H as [Hc Hrest]. rewrite Hc, (IH Hrest). reflexivity.
Qed.

(** When the name of the processor cannot be had, the core counts are
    not even asked for.  If [/proc/cpuinfo] cannot be read, or its first
    ['model name'] line holds no colon, [_init_cpu_info] makes no call
    but the read of the file and leaves name, cores and threads as they
    were (0 and 0 in a new monitor). *)
Theorem cpu_name_failure_skips_core_counts (env : init_env)
    (s : SystemInfo) :
  (exists e, cpuinfo_out env = Raises e) \/
  (exists lines line,
     cpuinfo_out env = Returns lines /\
     find (contains "model name") lines = Some line /\
     occurs colon line = false) ->
  calls_of (trace (_init_cpu_info env s)) = [read_file "/proc/cpuinfo"] /\
  cpu_name (final (_init_cpu_info env s)) = cpu_name s /\
  cpu_cores (final (_init_cpu_info env s)) = cpu_cores s /\
  cpu_threads (final (_init_cpu_info env s)) = cpu_threads s.
Proof.
  unfold _init_cpu_info.
  intros [[e He] | (lines & line & Hl & Hf & Hc)].
  - rewrite He. destruct e; repeat split.
  - rewrite Hl.
    cbv beta iota zeta delta
      [bind extern try_except result final trace except_Exception].
    rewrite Hf, (split_on_without_separator colon line Hc).
    repeat split.
Qed.

Lemma cpu_name_failure_skips_core_counts_witness :
  calls_of (trace (_init_cpu_info no_cpuinfo_init_env SystemInfo_default))
    = [read_file "/proc/cpuinfo"] /\
  cpu_cores (final (_init_cpu_info no_cpuinfo_init_env SystemInfo_default))
    = Some 0%Z.
Proof.
  destruct (cpu_name_failure_skips_core_counts no_cpuinfo_init_env
              SystemInfo_default
              (or_introl (ex_intro _ OSError eq_refl)))
    as (Hc & _ & Hcores & _).
  split; [exact Hc | exact Hcores].
Defined.

(** ** The NVML session of a cycle *)

(** The NVIDIA step opens an NVML session whenever the vendor module is
    there, and closes it only on the straight path: [nvmlShutdown] is
    called exactly when [nvmlInit], the request for the device, the
    utilization query and the memory query all answered.  A cycle in
    which one of the last three raises leaves the session open. *)
Theorem nvml_session_closed_only_on_success (mods : modules)
    (env : cycle_env) (s : SystemInfo) :
  let calls := calls_of (trace (update_nvidia_gpu_info mods env s)) in
  (In nvmlInit calls <-> NVIDIA_AVAILABLE mods = true) /\
  (In nvmlShutdown calls <->
   NVIDIA_AVAILABLE mods = true /\ answers (nvmlInit_out env) /\
   answers (handle_out env) /\ answers (utilization_out env) /\
   answers (memory_info_out env)).
Proof.
  unfold update_nvidia_gpu_info.
  destruct (NVIDIA_AVAILABLE mods);
    [ | cbn; intuition discriminate].
  cbv beta iota delta [negb].
  nvidia_path env ltac:(cbn; intuition discriminate).
Qed.

(** A failure in the middle of the NVIDIA step leaves the NVIDIA figures
    half renewed: when the utilization query answers and the memory
    query raises, [gpu_nvidia_usage] is this cycle's reading while used
    memory, total memory and temperature are still those from before
    the step. *)
Theorem memory_query_failure_renews_usage_only (mods : modules)
    (env : cycle_env) (s : SystemInfo) (h : handle) (u : Z) (e : pyexc) :
  NVIDIA_AVAILABLE mods = true ->
  nvmlInit_out env = Returns tt ->
  handle_out env = Returns h ->
  utilization_out env = Returns u ->
  memory_info_out env = Raises e ->
  let s' := final (update_nvidia_gpu_info mods env s) in
  gpu_nvidia_usage s' = inject_Z u /\
  gpu_nvidia_mem_used s' = gpu_nvidia_mem_used s /\
  gpu_nvidia_mem_total s' = gpu_nvidia_mem_total s /\
  gpu_nvidia_temp s' = gpu_nvidia_temp s.
Proof.
  intros Hav Hi Hh Hu Hm s'. subst s'.
  unfold update_nvidia_gpu_info. rewrite Hav, Hi, Hh, Hu, Hm.
  destruct e; repeat split.
Qed.

Lemma memory_query_failure_renews_usage_only_witness :
  gpu_nvidia_usage
    (final (update_nvidia_gpu_info nvidia_modules memory_query_failure_env
              snapshot_after_nvidia_cycle)) = inject_Z 90 /\
  gpu_nvidia_temp
    (final (update_nvidia_gpu_info nvidia_modules memory_query_failure_env
              snapshot_after_nvidia_cycle))
    = gpu_nvidia_temp snapshot_after_nvidia_cycle.
Proof.
  destruct (memory_query_failure_renews_usage_only nvidia_modules
              memory_query_failure_env snapshot_after_nvidia_cycle
              1%Z 90%Z NVMLError eq_refl eq_refl eq_refl eq_refl eq_refl)
    as (Hu & _ & _ & Ht).
  split; [exact Hu | exact Ht].
Defined.

(** ** Failures of the CPU and memory sources *)

Lemma update_all_cpu_raises (mods : modules) (env : cycle_env)
    (s : SystemInfo) (e : pyexc) :
  cpu_percent_out env = Raises e ->
  update_all mods env s = mkRun (Raises e) s [EvCall psutil_cpu_percent].
Proof.
  intros H. unfold update_all, update_cpu_info, bind at 1 2, extern at 1.
  cbn [result final trace]. rewrite H. reflexivity.
Qed.

Lemma update_all_memory_raises (mods : modules) (env : cycle_env)
    (s : SystemInfo) (c : Q) (e : pyexc) :
  cpu_percent_out env = Returns c ->
  virtual_memory_out env = Raises e ->
  result (update_all mods env s) = Raises e /\
  final (update_all mods env s) = final (update_cpu_info env s) /\
  trace (update_all mods env s)
    = trace (update_cpu_info env s) ++ [EvCall psutil_virtual_memory].
Proof.
  intros Hc Hm. unfold update_all.
  destruct (update_cpu_info_run env s c Hc) as [R1 _].
  destruct (bind_returns (update_cpu_info env)
              (fun _ => update_ram_info env ;;
                 update_intel_gpu_info mods env ;;
                 update_nvidia_gpu_info mods env) s tt R1)
    as (-> & -> & ->).
  unfold bind at 1 2 3, update_ram_info, bind at 1, extern at 1.
  cbn [result final trace]. rewrite Hm. cbn [result final trace].
  repeat split.
Qed.

(** A failure of [psutil.cpu_percent] is not caught anywhere in the
    cycle: [update_all] raises what it raised, after that single call
    and without a single assignment. *)
Theorem cpu_percent_failure_aborts_cycle (mods : modules) (env : cycle_env)
    (s : SystemInfo) (e : pyexc) :
  cpu_percent_out env = Raises e ->
  update_all mods env s = mkRun (Raises e) s [EvCall psutil_cpu_percent].
Proof.
  intros H. unfold update_all, update_cpu_info, bind at 1 2, extern at 1.
  cbn [result final trace]. rewrite H. reflexivity.
Qed.

Lemma cpu_percent_failure_aborts_cycle_witness :
  update_all laptop_modules cpu_failure_env snapshot_after_nvidia_cycle
  = mkRun (Raises OSError) snapshot_after_nvidia_cycle
      [EvCall psutil_cpu_percent].
Proof.
  exact (cpu_percent_failure_aborts_cycle laptop_modules cpu_failure_env
           snapshot_after_nvidia_cycle OSError eq_refl).
Defined.

(** Nor is a failure of [psutil.virtual_memory]: the CPU attributes are
    already assigned, the three memory attributes and all GPU figures
    stay as they were, neither GPU source is asked, and [update_all]
    raises. *)
Theorem virtual_memory_failure_aborts_cycle (mods : modules)
    (env : cycle_env) (s : SystemInfo) (c : Q) (e : pyexc) :
  cpu_percent_out env = Returns c ->
  virtual_memory_out env = Raises e ->
  let r := update_all mods env s in
  result r = Raises e /\
  calls_of (trace r)
    = [psutil_cpu_percent; psutil_cpu_freq; psutil_virtual_memory] /\
  cpu_usage (final r) = c /\
  ram_total (final r) = ram_total s /\
  ram_used (final r) = ram_used s /\
  ram_percent (final r) = ram_percent s /\
  gpu_intel_usage (final r) = gpu_intel_usage s /\
  nvidia_figures (final r) = nvidia_figures s.
Proof.
  intros Hc Hm r. subst r.
  destruct (update_all_memory_raises mods env s c e Hc Hm)
    as (-> & -> & ->).
  destruct (update_cpu_info_run env s c Hc) as [_ ->].
  assert (T1 : calls_of (trace (update_cpu_info env s))
               = [psutil_cpu_percent; psutil_cpu_freq]).
  { unfold_cycle. rewrite Hc. cbv beta iota zeta delta [result final trace].
    destruct (cpu_freq_out env) as [[current | ] | e']; reflexivity. }
  unfold calls_of in *. rewrite flat_map_app, T1.
  destruct (cpu_freq_out env) as [[current | ] | e']; repeat split.
Qed.

Lemma virtual_memory_failure_aborts_cycle_witness :
  result (update_all laptop_modules memory_failure_env
            snapshot_after_nvidia_cycle) = Raises OSError /\
  calls_of (trace (update_all laptop_modules memory_failure_env
                     snapshot_after_nvidia_cycle))
    = [psutil_cpu_percent; psutil_cpu_freq; psutil_virtual_memory].
Proof.
  destruct (virtual_memory_failure_aborts_cycle laptop_modules
              memory_failure_env snapshot_after_nvidia_cycle 40 OSError
              eq_refl eq_refl) as (Hr & Hc & _).
  split; [exact Hr | exact Hc].
Defined.

(** ** The loop of the web mode *)

Lemma run_eta {A} (r : run A) : mkRun (result r) (final r) (trace r) = r.
Proof. destruct r; reflexivity. Qed.

Lemma bind_ret_l {A B} (a : A) (k : A -> M B) (s : SystemInfo) :
  bind (ret a) k s = k a s.
Proof. unfold bind, ret. cbn. apply run_eta. Qed.

Lemma bind_assoc {A B C} (m : M A) (k : A -> M B) (h : B -> M C)
    (s : SystemInfo) :
  bind (bind m k) h s = bind m (fun a => bind (k a) h) s.
Proof.
  unfold bind. destruct (result (m s)) as [a | e]; cbn [result final trace].
  - destruct (result (k a (final (m s)))) as [b | e];
      cbn [result final trace]; [ | reflexivity].
    rewrite app_assoc. reflexivity.
  - reflexivity.
Qed.

Lemma bind_ext {A B} (m : M A) (k k' : A -> M B) (s : SystemInfo) :
  (forall a s', k a s' = k' a s') -> bind m k s = bind m k' s.
Proof.
  intros H. unfold bind. destruct (result (m s)); [ | reflexivity].
  rewrite H. reflexivity.
Qed.

Lemma update_loop_concat (mods : modules) (envs1 envs2 : list cycle_env)
    (s : SystemInfo) :
  update_loop mods (envs1 ++ envs2) s
  = bind (update_loop mods envs1) (fun _ => update_loop mods envs2) s.
Proof.
  revert s. induction envs1 as [ | env rest IH]; intros s.
  - cbn [app update_loop]. rewrite bind_ret_l. reflexivity.
  - cbn [app update_loop]. rewrite bind_assoc.
    apply bind_ext. intros _ s'. apply IH.
Qed.

(** The loop has no handler of its own: the first cycle that raises
    ends it, with that exception and in the state that cycle left; the
    cycles that would have followed never run. *)
Theorem update_loop_ends_at_first_failure (mods : modules)
    (before : list cycle_env) (env : cycle_env) (after : list cycle_env)
    (s : SystemInfo) (e : pyexc) :
  result (update_loop mods before s) = Returns tt ->
  result (update_all mods env (final (update_loop mods before s)))
    = Raises e ->
  result (update_loop mods (before ++ env :: after) s) = Raises e /\
  final (update_loop mods (before ++ env :: after) s)
    = final (update_all mods env (final (update_loop mods before s))) /\
  trace (update_loop mods (before ++ env :: after) s)
    = trace (update_loop mods before s)
      ++ trace (update_all mods env (final (update_loop mods before s))).
Proof.
  intros Hb He. rewrite update_loop_concat.
  destruct (bind_returns (update_loop mods before)
              (fun _ => update_loop mods (env :: after)) s tt Hb)
    as (-> & -> & ->).
  cbn [update_loop]. unfold bind at 1 2 3. rewrite He.
  cbn [result final trace]. repeat split.
Qed.

Lemma update_loop_ends_at_first_failure_witness :
  result (update_loop laptop_modules
            ([nvidia_cycle_env] ++ cpu_failure_env :: [nvidia_cycle_env])
            SystemInfo_default) = Raises OSError /\
  final (update_loop laptop_modules
           ([nvidia_cycle_env] ++ cpu_failure_env :: [nvidia_cycle_env])
           SystemInfo_default)
    = final (update_all laptop_modules cpu_failure_env
               (final (update_loop laptop_modules [nvidia_cycle_env]
                         SystemInfo_default))).
Proof.
  destruct (update_loop_ends_at_first_failure laptop_modules
              [nvidia_cycle_env] cpu_failure_env [nvidia_cycle_env]
              SystemInfo_default OSError eq_refl eq_refl)
    as (Hr & Hf & _).
  split; [exact Hr | exact Hf].
Defined.

Lemma update_all_returns (mods : modules) (env : cycle_env)
    (s : SystemInfo) :
  harmless env -> result (update_all mods env s) = Returns tt.
Proof.
  intros (Hc & Hm & Hnv & Hp).
  destruct (cpu_percent_out env) as [c | ] eqn:Ec; [ | contradiction].
  destruct (virtual_memory_out env) as [m | ] eqn:Em; [ | contradiction].
  rewrite (proj1 (update_all_run mods env s c m Ec Em)).
  apply update_nvidia_gpu_info_returns; assumption.
Qed.

(** The loop goes on as long as the CPU and memory sources answer, the
    NVML calls fail with errors at most and the message of the NVIDIA
    handler can be printed: over any number of such cycles it is still
    running, whatever the GPU sources did. *)
Theorem update_loop_survives_gpu_errors (mods : modules)
    (envs : list cycle_env) (s : SystemInfo) :
  Forall harmless envs -> result (update_loop mods envs s) = Returns tt.
Proof.
  intros H. revert s.
  induction H as [ | env rest Henv _ IH]; intros s; cbn [update_loop].
  - reflexivity.
  - destruct (bind_returns (update_all mods env)
                (fun _ => update_loop mods rest) s tt
                (update_all_returns mods env s Henv)) as (-> & _).
    apply IH.
Qed.

Lemma gpu_failure_env_harmless : harmless gpu_failure_env.
Proof. unfold harmless, nvidia_fails_with_error; cbn. repeat split. Qed.

Lemma update_loop_survives_gpu_errors_witness :
  Forall harmless [gpu_failure_env; gpu_failure_env] /\
  result (update_loop laptop_modules [gpu_failure_env; gpu_failure_env]
            SystemInfo_default) = Returns tt.
Proof.
  assert (H : Forall harmless [gpu_failure_env; gpu_failure_env]).
  { repeat constructor; apply gpu_failure_env_harmless. }
  split; [exact H | ].
  exact (update_loop_survives_gpu_errors laptop_modules
           [gpu_failure_env; gpu_failure_env] SystemInfo_default H).
Defined.

(** ** A cycle as a function of the readings *)

Lemma SystemInfo_ext (s1 s2 : SystemInfo) :
  outside_nvidia s1 = outside_nvidia s2 ->
  nvidia_figures s1 = nvidia_figures s2 -> s1 = s2.
Proof.
  destruct s1, s2. unfold outside_nvidia, nvidia_figures. cbn.
  intros H1 H2. injection H1 as -> -> -> -> -> -> -> -> -> -> -> ->.
  injection H2 as -> -> -> ->. reflexivity.
Qed.

Lemma update_nvidia_gpu_info_twice (mods : modules) (env : cycle_env)
    (s : SystemInfo) :
  nvidia_figures
    (final (update_nvidia_gpu_info mods env
              (final (update_nvidia_gpu_info mods env s))))
  = nvidia_figures (final (update_nvidia_gpu_info mods env s)).
Proof.
  unfold update_nvidia_gpu_info.
  destruct (NVIDIA_AVAILABLE mods); [ | reflexivity].
  cbv beta iota delta [negb].
  nvidia_path env ltac:(vm_compute; reflexivity).
Qed.

(** The three steps before the NVIDIA step, when the CPU and memory
    sources answer: they leave the NVIDIA figures alone, what they leave
    outside them depends on what was there only, and doing them twice is
    doing them once. *)
Lemma before_nvidia_step (mods : modules) (env : cycle_env) (c : Q)
    (m : svmem) :
  cpu_percent_out env = Returns c ->
  virtual_memory_out env = Returns m ->
  let T := fun s =>
    final (update_intel_gpu_info mods env
             (final (update_ram_info env (final (update_cpu_info env s)))))
  in
  (forall s, nvidia_figures (T s) = nvidia_figures s) /\
  (forall s1 s2, outside_nvidia s1 = outside_nvidia s2 ->
                 outside_nvidia (T s1) = outside_nvidia (T s2)) /\
  (forall s, outside_nvidia (T (T s)) = outside_nvidia (T s)).
Proof.
  intros Hc Hm T.
  assert (E : forall s, T s =
    (if INTEL_GPU_AVAILABLE mods
     then fun x => set_gpu_intel_mem_used 0 (set_gpu_intel_usage 0 x)
     else set_gpu_intel_usage (intel_estimate env))
      (set_ram_percent (percent m)
         (set_ram_used (inject_Z (used m) / inject_Z GiB)
            (set_ram_total (inject_Z (total m) / inject_Z GiB)
               match cpu_freq_out env with
               | Returns (Some current) =>
                   set_cpu_freq current (set_cpu_usage c s)
               | Returns None => set_cpu_usage c s
               | Raises _ => set_cpu_freq 0 (set_cpu_usage c s)
               end)))).
  { intros s. subst T. cbv beta.
    rewrite (proj2 (update_intel_gpu_info_run mods env _)).
    rewrite (proj2 (update_ram_info_run env _ m Hm)).
    rewrite (proj2 (update_cpu_info_run env s c Hc)).
    destruct (INTEL_GPU_AVAILABLE mods); reflexivity. }
  split; [ | split].
  - intros s. rewrite E.
    destruct (INTEL_GPU_AVAILABLE mods);
      destruct (cpu_freq_out env) as [[current | ] | e]; reflexivity.
  - intros s1 s2 H. rewrite !E. unfold outside_nvidia in H.
    injection H as H1 H2 H3 H4 H5 H6 H7 H8 H9 H10 H11 H12.
    destruct (INTEL_GPU_AVAILABLE mods);
      destruct (cpu_freq_out env) as [[current | ] | e];
      unfold outside_nvidia; cbn; congruence.
  - intros s. rewrite !E.
    destruct (INTEL_GPU_AVAILABLE mods);
      destruct (cpu_freq_out env) as [[current | ] | e]; reflexivity.
Qed.

(** A cycle is a function of its readings: run again with the same
    answers, from the snapshot it just left, it leaves that snapshot
    unchanged, whether it returned or raised.  What a cycle leaves
    depends on the snapshot before it only in the attributes it did not
    assign. *)
Theorem update_all_twice (mods : modules) (env : cycle_env)
    (s : SystemInfo) :
  final (update_all mods env (final (update_all mods env s)))
  = final (update_all mods env s).
Proof.
  destruct (cpu_percent_out env) as [c | e] eqn:Hc.
  - destruct (virtual_memory_out env) as [m | e] eqn:Hm.
    + rewrite !(proj2 (update_all_run mods env _ c m Hc Hm)).
      destruct (before_nvidia_step mods env c m Hc Hm) as (Hfig & Hout & Hidem).
      cbv zeta beta in Hfig, Hout, Hidem.
      apply SystemInfo_ext.
      * etransitivity; [apply update_nvidia_gpu_info_frame | ].
        etransitivity; [ | symmetry; apply update_nvidia_gpu_info_frame].
        etransitivity; [ | apply Hidem].
        apply Hout. apply update_nvidia_gpu_info_frame.
      * etransitivity; [ | apply update_nvidia_gpu_info_twice].
        apply update_nvidia_gpu_info_local. apply Hfig.
    + rewrite !(proj1 (proj2 (update_all_memory_raises mods env _ c e Hc Hm))).
      rewrite !(proj2 (update_cpu_info_run env _ c Hc)).
      destruct (cpu_freq_out env) as [[current | ] | e']; reflexivity.
  - rewrite !(update_all_cpu_raises mods env _ e Hc). reflexivity.
Qed.

(** ** The course of a cycle does not depend on the snapshot *)

Lemma oblivious_ret {A} (a : A) : oblivious (ret a).
Proof. intros s1 s2; split; reflexivity. Qed.

Lemma oblivious_raise {A} (e : pyexc) : oblivious (@raise A e).
Proof. intros s1 s2; split; reflexivity. Qed.

Lemma oblivious_extern {A} (c : call) (o : outcome A) :
  oblivious (extern c o).
Proof. intros s1 s2; split; reflexivity. Qed.

Lemma oblivious_assign {V} (f : field) (set : V -> SystemInfo -> SystemInfo)
    (v : V) :
  oblivious (assign f set v).
Proof. intros s1 s2; split; reflexivity. Qed.

Lemma oblivious_print (m : message) (e : pyexc) (o : outcome unit) :
  oblivious (print m e o).
Proof. intros s1 s2; split; reflexivity. Qed.

Lemma oblivious_compute {A} (o : outcome A) : oblivious (compute o).
Proof. intros s1 s2; split; reflexivity. Qed.

Lemma calls_of_app (t1 t2 : list event) :
  calls_of (t1 ++ t2) = calls_of t1 ++ calls_of t2.
Proof. unfold calls_of. apply flat_map_app. Qed.

Lemma oblivious_bind {A B} (m : M A) (k : A -> M B) :
  oblivious m -> (forall a, oblivious (k a)) -> oblivious (bind m k).
Proof.
  intros Hm Hk s1 s2. destruct (Hm s1 s2) as [Hr Hc].
  unfold bind. rewrite <- Hr.
  destruct (result (m s1)) as [a | e]; cbn [result trace].
  - destruct (Hk a (final (m s1)) (final (m s2))) as [Hr' Hc'].
    rewrite !calls_of_app, Hc, Hc', Hr'. split; reflexivity.
  - split; [reflexivity | exact Hc].
Qed.

Lemma oblivious_try_except {A} (body : M A) (catches : pyexc -> bool)
    (handler : pyexc -> M A) :
  oblivious body -> (forall e, oblivious (handler e)) ->
  oblivious (try_except body catches handler).
Proof.
  intros Hb Hh s1 s2. destruct (Hb s1 s2) as [Hr Hc].
  unfold try_except. rewrite <- Hr.
  destruct (result (body s1)) as [a | e] eqn:E.
  - rewrite E, Hr. split; [reflexivity | exact Hc].
  - destruct (catches e); cbn [result trace].
    + destruct (Hh e (final (body s1)) (final (body s2))) as [Hr' Hc'].
      rewrite !calls_of_app, Hc, Hc', Hr'. split; reflexivity.
    + rewrite E, Hr. split; [reflexivity | exact Hc].
Qed.

Ltac oblivious_structure :=
  repeat first
    [ apply oblivious_bind; [ | intros ? ]
    | apply oblivious_try_except; [ | intros ? ]
    | apply oblivious_ret
    | apply oblivious_raise
    | apply oblivious_extern
    | apply oblivious_assign
    | apply oblivious_print
    | apply oblivious_compute
    | match goal with
      | |- oblivious (match ?x with _ => _ end) => destruct x
      | |- oblivious (if ?b then _ else _) => destruct b
      end ].

Lemma update_all_oblivious (mods : modules) (env : cycle_env) :
  oblivious (update_all mods env).
Proof.
  unfold update_all, update_cpu_info, update_ram_info,
    update_intel_gpu_info, update_nvidia_gpu_info.
  oblivious_structure.
Qed.

(** No branch of the loop looks at the stored snapshot: from any two
    snapshots, the same answers lead the loop through the same calls in
    the same order and to the same end (return, or the same exception). *)
Theorem update_loop_course_ignores_snapshot (mods : modules)
    (envs : list cycle_env) (s1 s2 : SystemInfo) :
  result (update_loop mods envs s1) = result (update_loop mods envs s2) /\
  calls_of (trace (update_loop mods envs s1))
    = calls_of (trace (update_loop mods envs s2)).
Proof.
  revert s1 s2.
  change (oblivious (update_loop mods envs)).
  induction envs as [ | env rest IH]; cbn [update_loop].
  - apply oblivious_ret.
  - apply oblivious_bind; [apply update_all_oblivious | intros _; exact IH].
Qed.

(** ** The Intel estimate *)

Lemma Qle_bool_clock (freq : Z) :
  Qle_bool (inject_Z freq / 1000) 100 = (freq <=? 100000)%Z.
Proof.
  destruct (freq <=? 100000)%Z eqn:L.
  - apply Z.leb_le in L. apply Qle_bool_iff. unfold Qle. cbn. lia.
  - apply Z.leb_gt in L.
    destruct (Qle_bool (inject_Z freq / 1000) 100) eqn:E; [ | reflexivity].
    apply Qle_bool_iff in E. unfold Qle in E. cbn in E. lia.
Qed.

(** Without the Intel module the Intel figure is the clock of the GPU in
    MHz divided by 1000: for a clock up to 100000 MHz it is that
    quotient, above it is 100, and for a number too large for a float
    (from [2**1024 - 2**970] on, in absolute value) the conversion fails
    and the figure is 0. *)
Theorem intel_usage_is_clock_over_1000 (mods : modules) (env : cycle_env)
    (s : SystemInfo) (freq : Z) :
  INTEL_GPU_AVAILABLE mods = false ->
  gt_cur_freq_out env = Returns freq ->
  gpu_intel_usage (final (update_intel_gpu_info mods env s))
  = if (2 ^ 1024 - 2 ^ 970 <=? Z.abs freq)%Z then 0
    else if (freq <=? 100000)%Z then inject_Z freq / 1000 else 100.
Proof.
  intros Hav Hf.
  rewrite (proj2 (update_intel_gpu_info_run mods env s)), Hav.
  cbn [gpu_intel_usage set_gpu_intel_usage].
  unfold intel_estimate. rewrite Hf. unfold float_of_int.
  rewrite (Z.leb_antisym (Z.abs freq)).
  destruct (Z.abs freq <? 2 ^ 1024 - 2 ^ 970)%Z; [ | reflexivity].
  cbv beta iota delta [negb]. unfold py_min.
  rewrite Qle_bool_clock. reflexivity.
Qed.

Lemma intel_usage_is_clock_over_1000_witness :
  gpu_intel_usage
    (final (update_intel_gpu_info laptop_modules laptop_cycle_env
              SystemInfo_default))
  = inject_Z 350 / 1000 /\
  gpu_intel_usage
    (final (update_intel_gpu_info laptop_modules huge_clock_env
              snapshot_after_nvidia_cycle))
  = 0.
Proof.
  split.
  - exact (intel_usage_is_clock_over_1000 laptop_modules laptop_cycle_env
             SystemInfo_default 350 eq_refl eq_refl).
  - exact (intel_usage_is_clock_over_1000 laptop_modules huge_clock_env
             snapshot_after_nvidia_cycle (10 ^ 400) eq_refl eq_refl).
Defined.

(** [gpu_intel_mem_used] is never given a value other than 0: it is 0
    after construction and after any number of cycles. *)
Theorem gpu_intel_mem_used_stays_zero (mods : modules) (ienv : init_env)
    (envs : list cycle_env) :
  gpu_intel_mem_used
    (final (update_loop mods envs (final (SystemMonitor_init mods ienv))))
  = 0.
Proof.
  set (I := fun s : SystemInfo => gpu_intel_mem_used s = 0).
  assert (Hinit : keeps I any_event
            (bind (_init_cpu_info ienv) (fun _ => _init_gpu_info mods ienv))).
  { unfold _init_cpu_info, _init_gpu_info.
    keeps_structure; untouched_leaves. }
  assert (Hloop : keeps I any_event (update_loop mods envs)).
  { induction envs as [ | env rest IH]; cbn [update_loop].
    - apply keeps_ret.
    - apply keeps_bind; [ | intros _; exact IH].
      unfold update_all, update_cpu_info, update_ram_info,
        update_intel_gpu_info, update_nvidia_gpu_info.
      keeps_structure;
        first [ untouched_leaves
              | apply keeps_assign; intros ? _;
                split; [reflexivity | exact Logic.I] ]. }
  apply Hloop. apply Hinit. reflexivity.
Qed.

(** ** The terminal mode *)

Lemma print_lines_raises (ls : list line) (outs : nat -> outcome unit)
    (i : nat) (e : pyexc) :
  fst (print_lines ls outs i) = Raises e -> exists j, outs j = Raises e.
Proof.
  revert i. induction ls as [ | l rest IH]; intros i; cbn [print_lines].
  - discriminate.
  - destruct (outs i) as [u | e'] eqn:E; cbn [fst].
    + apply IH.
    + intros H. injection H as <-. exists i. exact E.
Qed.

Lemma print_lines_returns (ls : list line) (outs : nat -> outcome unit)
    (i : nat) :
  (forall j, answers (outs j)) -> fst (print_lines ls outs i) = Returns tt.
Proof.
  intros H. revert i.
  induction ls as [ | l rest IH]; intros i; cbn [print_lines].
  - reflexivity.
  - specialize (H i) as Hi. destruct (outs i); [ | destruct Hi].
    cbn [fst]. apply IH.
Qed.

Lemma print_lines_without_nvidia (ls : list line)
    (outs : nat -> outcome unit) (i : nat) :
  Forall (fun l => nvidia_line (Shows l) = false) ls ->
  Forall (fun ev => nvidia_line ev = false) (snd (print_lines ls outs i)).
Proof.
  intros H. revert i.
  induction H as [ | l rest Hl _ IH]; intros i; cbn [print_lines].
  - constructor.
  - destruct (outs i); cbn [snd].
    + constructor; [exact Hl | apply IH].
    + constructor; [exact Hl | constructor].
Qed.

(** What can leave [main].  An [Exception] or a Ctrl-C leaves [main]
    only out of the constructor or out of a [print] of [main] itself, in
    the header or in one of its two handlers.  Whatever is raised inside
    the loop (by a source, by a [print] of the monitor or of the report,
    by the pause) ends [main] through a handler, unless it is neither an
    [Exception] nor [KeyboardInterrupt]. *)
Theorem what_leaves_main (mods : modules) (ienv : init_env)
    (header_out : nat -> outcome unit) (ticks : list tick)
    (closing_out : outcome unit) (e : pyexc) :
  main_exit (main mods ienv header_out ticks closing_out) = Escaped e ->
  result (SystemMonitor_init mods ienv) = Raises e \/
  (exists i, header_out i = Raises e) \/
  closing_out = Raises e \/
  (is_Exception e = false /\ e <> KeyboardInterrupt).
Proof.
  unfold main.
  destruct (result (SystemMonitor_init mods ienv)) as [[] | e0].
  - destruct (fst (print_lines
                     (header_lines (final (SystemMonitor_init mods ienv)))
                     header_out 0)) as [u | e1] eqn:Eh.
    + destruct (loop_ended (main_loop mods ticks
                              (final (SystemMonitor_init mods ienv))))
        as [e2 | ]; [ | discriminate].
      assert (Hc : forall l st before,
                main_exit (closing l closing_out st before) = Escaped e ->
                closing_out = Raises e).
      { intros l st before. unfold closing.
        destruct closing_out as [u' | e3]; cbn; [discriminate | ].
        intros H. injection H as <-. reflexivity. }
      destruct e2; cbn [is_Exception]; intros H;
        try (right; right; left; exact (Hc _ _ _ H));
        cbn in H; injection H as <-;
        right; right; right; split; [reflexivity | discriminate].
    + cbn. intros H. injection H as <-.
      right; left. exact (print_lines_raises _ _ _ _ Eh).
  - cbn. intros H. injection H as <-. left. reflexivity.
Qed.

Lemma what_leaves_main_witness :
  main_exit (main laptop_modules laptop_init_env
               (fun _ => Raises UnicodeEncodeError) two_ticks_then_ctrl_c
               (Returns tt))
    = Escaped UnicodeEncodeError /\
  (result (SystemMonitor_init laptop_modules laptop_init_env)
     = Raises UnicodeEncodeError \/
   (exists i : nat,
      (fun _ : nat => Raises UnicodeEncodeError) i
      = @Raises unit UnicodeEncodeError) \/
   @Returns unit tt = Raises UnicodeEncodeError \/
   (is_Exception UnicodeEncodeError = false /\
    UnicodeEncodeError <> KeyboardInterrupt)).
Proof.
  assert (H : main_exit (main laptop_modules laptop_init_env
                           (fun _ => Raises UnicodeEncodeError)
                           two_ticks_then_ctrl_c (Returns tt))
              = Escaped UnicodeEncodeError) by (vm_compute; reflexivity).
  split; [exact H | ].
  exact (what_leaves_main laptop_modules laptop_init_env
           (fun _ => Raises UnicodeEncodeError) two_ticks_then_ctrl_c
           (Returns tt) UnicodeEncodeError H).
Defined.

Lemma update_all_same_static (mods : modules) (env : cycle_env)
    (s : SystemInfo) :
  same_static s (final (update_all mods env s)).
Proof.
  exact (proj1 (update_all_dynamic mods env s s (same_static_refl s))).
Qed.

(** The two modes run the same cycles: as long as every report is
    printed and no pause is interrupted, the snapshot of the terminal
    loop is the one [update_loop] leaves over the same answers, and the
    terminal loop is left exactly by what ends [update_loop]. *)
Theorem main_loop_runs_update_loop (mods : modules) (ticks : list tick)
    (s : SystemInfo) :
  Forall quiet ticks ->
  loop_state (main_loop mods ticks s)
    = final (update_loop mods (map tick_env ticks) s) /\
  loop_ended (main_loop mods ticks s)
    = match result (update_loop mods (map tick_env ticks) s) with
      | Returns _ => Looping
      | Raises e => Left_by e
      end.
Proof.
  intros H. revert s.
  induction H as [ | t rest [Hp Hs] _ IH]; intros s.
  - split; reflexivity.
  - cbn [main_loop map update_loop]. unfold bind.
    destruct (result (update_all mods (tick_env t) s)) as [[] | e];
      cbn [result final]; [ | split; reflexivity].
    rewrite (print_lines_returns _ _ 0 Hp).
    destruct (tick_sleep_out t) as [[] | e]; [ | destruct Hs].
    cbn [loop_state loop_ended]. apply IH.
Qed.

Lemma main_loop_runs_update_loop_witness :
  loop_state (main_loop laptop_modules
                [mkTick laptop_cycle_env all_printed (Returns tt);
                 mkTick gpu_failure_env all_printed (Returns tt)]
                SystemInfo_default)
  = final (update_loop laptop_modules [laptop_cycle_env; gpu_failure_env]
             SystemInfo_default).
Proof.
  refine (proj1 (main_loop_runs_update_loop laptop_modules
                   [mkTick laptop_cycle_env all_printed (Returns tt);
                    mkTick gpu_failure_env all_printed (Returns tt)]
                   SystemInfo_default _)).
  repeat constructor.
Defined.

Lemma init_without_module_keeps_name_empty (mods : modules)
    (env : init_env) :
  NVIDIA_AVAILABLE mods = false ->
  gpu_nvidia_name (final (SystemMonitor_init mods env)) = ""%string.
Proof.
  intros Hav.
  assert (K : keeps (fun s => gpu_nvidia_name s = ""%string) any_event
                (bind (_init_cpu_info env)
                   (fun _ => _init_gpu_info mods env))).
  { unfold _init_cpu_info, _init_gpu_info. rewrite Hav.
    keeps_structure; untouched_leaves. }
  exact (proj1 (K SystemInfo_default eq_refl)).
Qed.

Lemma Forall_Inner_without_nvidia (t : list event) :
  Forall (fun ev => nvidia_line ev = false) (map Inner t).
Proof.
  apply Forall_forall. intros ev Hev. apply in_map_iff in Hev.
  destruct Hev as (x & <- & _). reflexivity.
Qed.

Lemma main_loop_without_nvidia_name (mods : modules) (ticks : list tick)
    (s : SystemInfo) :
  gpu_nvidia_name s = ""%string ->
  Forall (fun ev => nvidia_line ev = false)
    (loop_screen (main_loop mods ticks s)).
Proof.
  revert s. induction ticks as [ | t rest IH]; intros s Hs.
  - constructor.
  - cbn [main_loop].
    destruct (update_all_same_static mods (tick_env t) s)
      as (_ & _ & _ & _ & Hn).
    rewrite Hs in Hn.
    pose proof (Forall_Inner_without_nvidia
                  (trace (update_all mods (tick_env t) s))) as Hin.
    assert (Hrep : Forall (fun ev => nvidia_line ev = false)
              (snd (print_lines
                      (report_lines (final (update_all mods (tick_env t) s)))
                      (tick_print_out t) 0))).
    { apply print_lines_without_nvidia.
      unfold report_lines. rewrite Hn. cbn [truthy].
      destruct (truthy (gpu_intel_name
                          (final (update_all mods (tick_env t) s))));
        repeat constructor. }
    destruct (result (update_all mods (tick_env t) s)) as [[] | e];
      cbn [loop_screen]; [ | exact Hin].
    destruct (fst (print_lines
                     (report_lines (final (update_all mods (tick_env t) s)))
                     (tick_print_out t) 0)); cbn [loop_screen];
      [ | apply Forall_app; split; assumption].
    assert (Hshown : Forall (fun ev => nvidia_line ev = false)
              (map Inner (trace (update_all mods (tick_env t) s)) ++
               snd (print_lines
                      (report_lines (final (update_all mods (tick_env t) s)))
                      (tick_print_out t) 0) ++ [Sleeps 2])).
    { apply Forall_app. split; [exact Hin | ].
      apply Forall_app. split; [exact Hrep | repeat constructor]. }
    destruct (tick_sleep_out t) as [[] | e]; cbn [loop_screen];
      [ | exact Hshown].
    apply Forall_app. split; [exact Hshown | apply IH; exact Hn].
Qed.

(** Whether the NVIDIA GPU appears at the terminal is decided at
    construction, by the name alone.  Without the vendor module the name
    stays empty; and with an empty name neither the header nor any
    report shows an NVIDIA line, whatever the later cycles read from the
    GPU. *)
Theorem no_nvidia_name_no_nvidia_line (mods : modules) (ienv : init_env)
    (header_out : nat -> outcome unit) (ticks : list tick)
    (closing_out : outcome unit) :
  (NVIDIA_AVAILABLE mods = false ->
   gpu_nvidia_name (final (SystemMonitor_init mods ienv)) = ""%string) /\
  (gpu_nvidia_name (final (SystemMonitor_init mods ienv)) = ""%string ->
   Forall (fun ev => nvidia_line ev = false)
     (main_screen (main mods ienv header_out ticks closing_out))).
Proof.
  split; [apply init_without_module_keeps_name_empty | ].
  intros Hn. unfold main.
  pose proof (Forall_Inner_without_nvidia
                (trace (SystemMonitor_init mods ienv))) as Hin.
  destruct (result (SystemMonitor_init mods ienv)) as [[] | e0];
    [ | exact Hin].
  assert (Hhead : Forall (fun ev => nvidia_line ev = false)
            (snd (print_lines
                    (header_lines (final (SystemMonitor_init mods ienv)))
                    header_out 0))).
  { apply print_lines_without_nvidia.
    unfold header_lines. rewrite Hn. cbn [truthy].
    destruct (truthy (gpu_intel_name
                        (final (SystemMonitor_init mods ienv))));
      repeat constructor. }
  destruct (fst (print_lines
                   (header_lines (final (SystemMonitor_init mods ienv)))
                   header_out 0)); cbn [main_screen];
    [ | apply Forall_app; split; assumption].
  assert (Hbefore : Forall (fun ev => nvidia_line ev = false)
            (map Inner (trace (SystemMonitor_init mods ienv)) ++
             snd (print_lines
                    (header_lines (final (SystemMonitor_init mods ienv)))
                    header_out 0)
             ++ loop_screen (main_loop mods ticks
                               (final (SystemMonitor_init mods ienv))))).
  { apply Forall_app. split; [exact Hin | ].
    apply Forall_app. split; [exact Hhead | ].
    apply main_loop_without_nvidia_name. exact Hn. }
  assert (Hclose : forall l,
            nvidia_line (Shows l) = false ->
            Forall (fun ev => nvidia_line ev = false)
              (main_screen
                 (closing l closing_out
                    (loop_state (main_loop mods ticks
                                   (final (SystemMonitor_init mods ienv))))
                    (map Inner (trace (SystemMonitor_init mods ienv)) ++
                     snd (print_lines
                            (header_lines
                               (final (SystemMonitor_init mods ienv)))
                            header_out 0)
                     ++ loop_screen
                          (main_loop mods ticks
                             (final (SystemMonitor_init mods ienv))))))).
  { intros l Hl. unfold closing.
    destruct closing_out; cbn [main_screen];
      (apply Forall_app; split; [exact Hbefore | repeat constructor; exact Hl]). }
  destruct (loop_ended (main_loop mods ticks
                          (final (SystemMonitor_init mods ienv))))
    as [[] | ]; cbn [main_screen is_Exception];
    first [exact Hbefore | apply Hclose; reflexivity].
Qed.

Lemma no_nvidia_name_no_nvidia_line_witness :
  gpu_nvidia_name (final (SystemMonitor_init laptop_modules laptop_init_env))
    = ""%string /\
  Forall (fun ev => nvidia_line ev = false)
    (main_screen (main laptop_modules laptop_init_env all_printed
                    two_ticks_then_ctrl_c (Returns tt))).
Proof.
  assert (H : gpu_nvidia_name
                (final (SystemMonitor_init laptop_modules laptop_init_env))
              = ""%string) by (vm_compute; reflexivity).
  split; [exact H | ].
  exact (proj2 (no_nvidia_name_no_nvidia_line laptop_modules
                  laptop_init_env all_printed two_ticks_then_ctrl_c
                  (Returns tt)) H).
Defined.
